(** * The [add] command of the Storybook CLI and the Vue 3 Vite preset

    A shallow embedding of the [sb add <addon>] command
    (src/unnamed/part_002: parse the specifier, find the main config, check
    for a duplicate, resolve a version, install, register the addon, run the
    post-install hook) and of the [viteFinal] hook of the Vue 3 Vite preset
    (src/unnamed/part_001), with the properties the specification states
    about them.

    JavaScript strings are sequences of UTF-16 code units; regular
    expressions are run by a small backtracking matcher that follows the
    ECMAScript matching order; the asynchronous workflow of [add] is a
    computation in a writer-and-exception monad that records every call to a
    collaborator, in order. *)

From Stdlib Require Import String Ascii NArith ZArith Lia.
From stdpp Require Import base option list gmap.

Set Warnings "-register-all".
Local Open Scope N_scope.
Local Open Scope nat_scope.

(** ** JavaScript strings *)

(** A string is the list of its UTF-16 code units. *)
Definition jsstring : Type := list N.

(** The code units of a literal made of ASCII characters. *)
Definition js (s : string) : jsstring :=
  N_of_ascii <$> list_ascii_of_string s.

(** The code unit of an ASCII character. *)
Definition chr (a : ascii) : N := N_of_ascii a.
Arguments chr : simpl never.

(** [!s] for a string: only the empty string is falsy. *)
Definition str_truthy (s : jsstring) : bool :=
  match s with [] => false | _ :: _ => true end.

(** Truthiness of a [string | undefined] (or [string | null]). *)
Definition opt_truthy (o : option jsstring) : bool :=
  match o with Some s => str_truthy s | None => false end.

(** [a || b] on [string | undefined]. *)
Definition js_or (a b : option jsstring) : option jsstring :=
  if opt_truthy a then a else b.

(** [userSpecifiedConfigDir || inferredConfigDir || '.storybook'] (line 92) *)
Definition resolveConfigDir (userSpecifiedConfigDir inferredConfigDir : option jsstring)
  : option jsstring :=
  js_or (js_or userSpecifiedConfigDir inferredConfigDir) (Some (js ".storybook")).

Definition jsstring_eqb (a b : jsstring) : bool := bool_decide (a = b).

(** [s.endsWith(t)] *)
Definition endsWith (s t : jsstring) : bool :=
  bool_decide (length t <= length s) &&
  jsstring_eqb (drop (length s - length t) s) t.

(** ** Regular expressions *)

(** The character classes the two patterns of the source use. *)
Inductive cls : Type :=
| CChar (c : N)      (* the character c *)
| CNotChar (c : N)   (* [^c] *)
| CDot               (* .  : anything but a line terminator *)
| CDigit.            (* \d : 0-9 *)

Definition isLineTerminator (c : N) : bool :=
  (c =? 10)%N || (c =? 13)%N || (c =? 8232)%N || (c =? 8233)%N.

Definition cls_match (k : cls) (c : N) : bool :=
  match k with
  | CChar d => (c =? d)%N
  | CNotChar d => negb (c =? d)%N
  | CDot => negb (isLineTerminator c)
  | CDigit => (48 <=? c)%N && (c <=? 57)%N
  end.

Inductive regex : Type :=
| RBol                            (* ^ *)
| REol                            (* $ *)
| RChar (k : cls)                 (* one character of a class *)
| RSeq (r1 r2 : regex)            (* r1 r2 *)
| ROpt (r : regex)                (* r? and r{0,1}, greedy *)
| RPlus (k : cls)                 (* k+, greedy *)
| RGroup (g : nat) (r : regex).   (* capturing group number g *)

(** The captures: entry [g] is group [g], [None] while it is undefined
    (entry 0, the whole match, is never read and stays [None]). *)
Definition captures : Type := list (option jsstring).

(** A continuation gets the index reached, the rest of the input and the
    captures so far; it answers the captures of a whole match, or [None] to
    make the matcher backtrack. *)
Definition kont : Type := nat -> jsstring -> captures -> option captures.

(** [k+]: as many characters as possible first, then one fewer, ... *)
Fixpoint rplus (k : cls) (i : nat) (s : jsstring) (c : captures) (K : kont)
  : option captures :=
  match s with
  | [] => None
  | x :: s' =>
      if cls_match k x then
        match rplus k (S i) s' c K with
        | Some r => Some r
        | None => K (S i) s' c
        end
      else None
  end.

Fixpoint rmatch (r : regex) (i : nat) (s : jsstring) (c : captures) (K : kont)
  : option captures :=
  match r with
  | RBol => if bool_decide (i = 0) then K i s c else None
  | REol => match s with [] => K i s c | _ :: _ => None end
  | RChar k =>
      match s with
      | x :: s' => if cls_match k x then K (S i) s' c else None
      | [] => None
      end
  | RSeq r1 r2 => rmatch r1 i s c (fun i' s' c' => rmatch r2 i' s' c' K)
  | ROpt r1 =>
      (* one iteration first; an iteration that consumes nothing is refused *)
      match rmatch r1 i s c
              (fun i' s' c' => if bool_decide (i' = i) then None else K i' s' c') with
      | Some res => Some res
      | None => K i s c
      end
  | RPlus k => rplus k i s c K
  | RGroup g r1 =>
      rmatch r1 i s c (fun i' s' c' => K i' s' (<[g := Some (take (i' - i) s)]> c'))
  end.

(** [re.exec(s)] for a pattern without flags and with [n] groups: the first
    start index from which the pattern matches. *)
Fixpoint exec_from (r : regex) (n : nat) (i : nat) (s : jsstring)
  : option captures :=
  match rmatch r i s (replicate (S n) None) (fun _ _ c => Some c) with
  | Some c => Some c
  | None =>
      match s with
      | [] => None
      | _ :: s' => exec_from r n (S i) s'
      end
  end.

Definition exec (r : regex) (n : nat) (s : jsstring) : option captures :=
  exec_from r n 0 s.

(** [groups[g]]: the capture, [undefined] when the group did not take part. *)
Definition group (c : captures) (g : nat) : option jsstring := mjoin (c !! g).

(** ** [getVersionSpecifier] *)

(** [@{0,1}[^@]+], the content of group 1 *)
Definition re_name : regex :=
  RSeq (ROpt (RChar (CChar (chr "@")))) (RPlus (CNotChar (chr "@"))).

(** [(?:@(.+))?$] *)
Definition re_version : regex :=
  RSeq (ROpt (RSeq (RChar (CChar (chr "@"))) (RGroup 2 (RPlus CDot)))) REol.

(** [/^(@{0,1}[^@]+)(?:@(.+))?$/] *)
Definition re_specifier : regex :=
  RSeq RBol (RSeq (RGroup 1 re_name) re_version).

(** Lines 35-41. Group 1 is under no quantifier, so it is defined in every
    match ([specifier_group1_defined] below) and the default is never used. *)
Definition getVersionSpecifier (addon : jsstring) : jsstring * option jsstring :=
  match exec re_specifier 2 addon with
  | Some groups => (default [] (group groups 1), group groups 2)
  | None => (addon, None)
  end.

(** The same split without a regular expression. [untilAt s] cuts [s]
    before its first [@]. *)
Fixpoint untilAt (s : jsstring) : jsstring * jsstring :=
  match s with
  | [] => ([], [])
  | x :: s' =>
      if (x =? chr "@")%N then ([], s)
      else let '(a, b) := untilAt s' in (x :: a, b)
  end.

(** A leading [@] belongs to the name; the name then runs up to the next
    [@]; what follows that [@] is the version, which must be non-empty and
    free of line terminators, or the input is not split at all. *)
Definition splitSpecifier (addon : jsstring) : jsstring * option jsstring :=
  let '(scope, body) :=
    match addon with
    | x :: s' => if (x =? chr "@")%N then ([x], s') else ([], addon)
    | [] => ([], addon)
    end in
  match untilAt body with
  | ((_ :: _) as name, []) => (scope ++ name, None)
  | ((_ :: _) as name, _ :: version) =>
      if str_truthy version && forallb (fun c => negb (isLineTerminator c)) version
      then (scope ++ name, Some version)
      else (addon, None)
  | ([], _) => (addon, None)
  end.

(** ** [isValidVersion] *)

(** [/^\d+$/] *)
Definition re_digits : regex := RSeq RBol (RSeq (RPlus CDigit) REol).

(** Lines 147-149: [SemVer.valid(version) || version.match(/^\d+$/)], as a
    truth value.
    [valid] is the [valid] function of the semver package: it answers the
    normalised version, or [null]. *)
Definition isValidVersion (valid : jsstring -> option jsstring)
    (version : jsstring) : bool :=
  opt_truthy (valid version) || bool_decide (is_Some (exec re_digits 0 version)).

(** ** JavaScript values *)

(** The values a config module can export, as far as [add] looks at them.
    An object is the association list of its properties; the first binding
    of a key is the property. Of a number only its truth value is ever
    read, so an integer stands for it. *)
Inductive value : Type :=
| VUndefined
| VNull
| VBool (b : bool)
| VNumber (n : Z)
| VString (s : jsstring)
| VArray (elems : list value)
| VObject (props : list (jsstring * value)).

(** What [add] can throw. *)
Inductive error : Type :=
| ConfigDirError          (* the Error of lines 95-97 *)
| TypeError               (* raised by the JavaScript runtime *)
| Thrown (e : value).     (* what a collaborator threw *)

Inductive result (A : Type) : Type :=
| Ok (a : A)
| Err (e : error).
Arguments Ok {A} a.
Arguments Err {A} e.

(** What a call to a collaborator gives: a value, or whatever it throws. *)
Inductive answer (A : Type) : Type :=
| Returns (a : A)
| Throws (e : value).
Arguments Returns {A} a.
Arguments Throws {A} e.

Definition is_nullish (v : value) : bool :=
  match v with VUndefined | VNull => true | _ => false end.

(** [!!v] *)
Definition truthy (v : value) : bool :=
  match v with
  | VUndefined | VNull => false
  | VBool b => b
  | VNumber n => negb (n =? 0)%Z
  | VString s => str_truthy s
  | VArray _ | VObject _ => true
  end.

Fixpoint assoc (key : jsstring) (props : list (jsstring * value)) : option value :=
  match props with
  | [] => None
  | (k, v) :: rest => if jsstring_eqb k key then Some v else assoc key rest
  end.

(** [v.key] for a key that no built-in prototype defines ([addons], [name],
    [plugins], [resolve], [alias], ...): reading it off [undefined] or [null]
    throws, off a primitive or an array gives [undefined]. *)
Definition getProp (v : value) (key : jsstring) : result value :=
  match v with
  | VUndefined | VNull => Err TypeError
  | VObject props => Ok (default VUndefined (assoc key props))
  | _ => Ok VUndefined
  end.

(** ** [checkInstalled] *)

(** The callback given to [find]:
    [name = typeof entry === 'string' ? entry : entry.name], then
    [name?.endsWith(addonName)] as a truth value. *)
Definition entryMatches (addonName : jsstring) (entry : value) : result bool :=
  match (match entry with
         | VString s => Ok (VString s)
         | _ => getProp entry (js "name")
         end) with
  | Err e => Err e
  | Ok VUndefined | Ok VNull => Ok false
  | Ok (VString s) => Ok (endsWith s addonName)
  | Ok _ => Err TypeError    (* name.endsWith is not a function *)
  end.

(** [Array.prototype.find]: the first element the callback accepts,
    [undefined] when there is none. *)
Fixpoint find (f : value -> result bool) (l : list value) : result value :=
  match l with
  | [] => Ok VUndefined
  | x :: rest =>
      match f x with
      | Err e => Err e
      | Ok true => Ok x
      | Ok false => find f rest
      end
  end.

(** Lines 50-56 *)
Definition checkInstalled (addonName : jsstring) (main : value) : result bool :=
  match getProp main (js "addons") with
  | Err e => Err e
  | Ok VUndefined | Ok VNull => Ok false           (* ?. stops, !!undefined *)
  | Ok (VArray entries) =>
      match find (entryMatches addonName) entries with
      | Err e => Err e
      | Ok existingAddon => Ok (truthy existingAddon)
      end
  | Ok _ => Err TypeError                          (* .find is not a function *)
  end.

(** ** The workflow of [add] *)

Definition PackageManagerName : Type := jsstring.

Record CLIOptions : Type := {
  opt_packageManager : option PackageManagerName;
  opt_configDir : option jsstring;
  opt_skipPostinstall : bool
}.

Record PostinstallOptions : Type := {
  po_packageManager : PackageManagerName;
  po_configDir : jsstring
}.

(** What [getStorybookInfo] answers, as far as [add] reads it. *)
Record StorybookInfo : Type := {
  info_mainConfig : option jsstring;
  info_configDir : option jsstring
}.

(** The package manager handle: its [type] and the three methods [add]
    calls. *)
Record PackageManager : Type := {
  pm_type : PackageManagerName;
  retrievePackageJson : answer value;
  latestVersion : jsstring -> answer jsstring;
  addDependencies : bool -> list jsstring -> answer unit
}.

Inductive level : Type := LError | LWarn | LLog.

Section Workflow.

(** The handle [readConfig] answers (a [ConfigFile] of csf-tools). *)
Context {ConfigFile : Type}.

(** The collaborators of [add], none of which is under src/: the
    package manager factory, the Storybook project lookup, node's [path]
    and [process.cwd()], the module loader, the config reader and writer,
    the table of core packages, the semver package and the post-install
    hook. [add] calls each of them at most once, so each is a function of
    its arguments. *)
Record World : Type := {
  getPackageManager : option PackageManagerName -> PackageManager;
  getStorybookInfo : value -> option jsstring -> answer StorybookInfo;
  isAbsolute : jsstring -> bool;
  pathJoin : jsstring -> jsstring -> jsstring;
  cwd : jsstring;
  serverRequire : jsstring -> answer value;
  readConfig : jsstring -> answer ConfigFile;
  appendValueToArray : list jsstring -> jsstring -> ConfigFile -> answer ConfigFile;
  writeConfig : ConfigFile -> answer unit;
  getCoercedStorybookVersion : PackageManager -> answer (option jsstring);
  versions : gmap jsstring jsstring;
  SemVer_valid : jsstring -> option jsstring;
  postinstallAddon : jsstring -> PostinstallOptions -> answer unit
}.

(** What an execution does to the outside, one event per call. *)
Inductive event : Type :=
| ERetrievePackageJson
| EGetStorybookInfo (packageJson : value) (configDir : option jsstring)
| EServerRequire (file : jsstring)
| EReadConfig (file : jsstring)
| EGetCoercedStorybookVersion
| ELatestVersion (name : jsstring)
| EAddDependencies (installAsDevDependencies : bool) (specs : list jsstring)
| EAppendValueToArray (path : list jsstring) (v : jsstring)
| EWriteConfig (main : ConfigFile)
| EPostinstallAddon (name : jsstring) (options : PostinstallOptions)
| ELogger (l : level) (message : jsstring).

(** A computation: the events it caused, in order, and how it ended. *)
Definition M (A : Type) : Type := list event * result A.

Definition ret {A} (a : A) : M A := ([], Ok a).
Definition throw {A} (e : error) : M A := ([], Err e).
Definition bind {A B} (m : M A) (f : A -> M B) : M B :=
  match m with
  | (t, Err e) => (t, Err e)
  | (t, Ok a) => let '(t', r) := f a in (t ++ t', r)
  end.
(** A call to a collaborator: the event, then its answer. *)
Definition call {A} (e : event) (r : answer A) : M A :=
  ([e], match r with Returns a => Ok a | Throws v => Err (Thrown v) end).
(** A computation of the JavaScript runtime, which causes no event. *)
Definition lift {A} (r : result A) : M A := ([], r).
Definition logger (l : level) (message : jsstring) : M unit :=
  ([ELogger l message], Ok tt).

Notation "'do' x <- m ; k" := (bind m (fun x => k))
  (at level 10, x name, m at level 100, k at level 200).
Notation "'run' m ; k" := (bind m (fun _ => k))
  (at level 10, m at level 100, k at level 200).

Variable w : World.

(** Lines 43-48 *)
Definition requireMain (configDir : jsstring) : M value :=
  let absoluteConfigDir :=
    if isAbsolute w configDir then configDir else pathJoin w (cwd w) configDir in
  let mainFile := pathJoin w absoluteConfigDir (js "main") in
  do m <- call (EServerRequire mainFile) (serverRequire w mainFile);
  ret (if is_nullish m then VObject [] else m).

(** [Object.hasOwn(versions, addonName)] *)
Definition isCoreAddon (addonName : jsstring) : bool :=
  bool_decide (is_Some (versions w !! addonName)).

(** Lines 117-124: [version] starts as the input version, becomes the
    Storybook version for a core addon, and the latest published version
    when it is still falsy. *)
Definition resolveVersion (packageManager : PackageManager)
    (addonName : jsstring) (inputVersion storybookVersion : option jsstring)
  : M jsstring :=
  let version :=
    if negb (opt_truthy inputVersion) && isCoreAddon addonName
       && opt_truthy storybookVersion
    then storybookVersion else inputVersion in
  match version with
  | Some v =>
      if negb (str_truthy v)
      then call (ELatestVersion addonName) (latestVersion packageManager addonName)
      else ret v
  | None => call (ELatestVersion addonName) (latestVersion packageManager addonName)
  end.

Definition mismatchWarning (addonName : jsstring) : jsstring :=
  js "The version of " ++ addonName ++
  js " you are installing is not the same as the version of Storybook you are using. This may lead to unexpected behavior.".

(** Lines 126-130 *)
Definition warnOnMismatch (addonName version : jsstring)
    (storybookVersion : option jsstring) : M unit :=
  if isCoreAddon addonName && negb (bool_decide (Some version = storybookVersion))
  then logger LWarn (mismatchWarning addonName)
  else ret tt.

(** Lines 132-134 *)
Definition addonWithVersion (addonName version : jsstring) : jsstring :=
  if isValidVersion (SemVer_valid w) version
  then addonName ++ js "@^" ++ version
  else addonName ++ js "@" ++ version.

(** The message of lines 106-108. *)
Definition duplicateMessage (addonName mainConfig : jsstring) : jsstring :=
  js "The Storybook Addon " ++ [34%N] ++ addonName ++ [34%N] ++
  js " is already present in " ++ mainConfig ++
  js "; Its configuration will be skipped.".

(** Lines 79-146. A [return] ends the computation with [Ok tt]; an [await]
    is the next step of the sequence. *)
Definition add (addon : jsstring) (options : CLIOptions) : M unit :=
  let '(addonName, inputVersion) := getVersionSpecifier addon in
  let packageManager := getPackageManager w (opt_packageManager options) in
  do packageJson <- call ERetrievePackageJson (retrievePackageJson packageManager);
  do info <- call (EGetStorybookInfo packageJson (opt_configDir options))
                  (getStorybookInfo w packageJson (opt_configDir options));
  let configDir :=
    resolveConfigDir (opt_configDir options) (info_configDir info) in
  match configDir with
  | None => throw ConfigDirError     (* typeof configDir === 'undefined' *)
  | Some configDir =>
      match info_mainConfig info with
      | None => logger LError (js "Unable to find Storybook main.js config")
      | Some mainConfig =>
        if negb (str_truthy mainConfig)
        then logger LError (js "Unable to find Storybook main.js config")
        else
        do required <- requireMain configDir;
        do installed <- lift (checkInstalled addonName required);
        if installed : bool
        then logger LError (duplicateMessage addonName mainConfig)
        else
          do main <- call (EReadConfig mainConfig) (readConfig w mainConfig);
          run logger LLog (js "Verifying " ++ addonName);
          do storybookVersion <-
            call EGetCoercedStorybookVersion
                 (getCoercedStorybookVersion w packageManager);
          do version <- resolveVersion packageManager addonName
                                       inputVersion storybookVersion;
          run warnOnMismatch addonName version storybookVersion;
          let spec := addonWithVersion addonName version in
          run logger LLog (js "Installing " ++ spec);
          run call (EAddDependencies true [spec])
                   (addDependencies packageManager true [spec]);
          run logger LLog (js "Adding '" ++ addon ++
                           js "' to the addons field in " ++ mainConfig ++ js ".");
          do main' <- call (EAppendValueToArray [js "addons"] addonName)
                           (appendValueToArray w [js "addons"] addonName main);
          run call (EWriteConfig main') (writeConfig w main');
          if negb (opt_skipPostinstall options) && isCoreAddon addonName
          then
            let postinstallOptions :=
              {| po_packageManager := pm_type packageManager;
                 po_configDir := configDir |} in
            call (EPostinstallAddon addonName postinstallOptions)
                 (postinstallAddon w addonName postinstallOptions)
          else ret tt
      end
  end.

End Workflow.
Arguments World : clear implicits.
Arguments event : clear implicits.

(** ** What a trace shows *)

Section Observations.

Context {ConfigFile : Type}.
Implicit Types (t : list (event ConfigFile)) (e : event ConfigFile).

(** The install calls: the dev-dependency flag and the package specs. *)
Definition installs t : list (bool * list jsstring) :=
  omap (fun e => match e with
                 | EAddDependencies dev specs => Some (dev, specs)
                 | _ => None
                 end) t.

(** The values appended to the config in memory, with their paths. *)
Definition appends t : list (list jsstring * jsstring) :=
  omap (fun e => match e with
                 | EAppendValueToArray path v => Some (path, v)
                 | _ => None
                 end) t.

(** The configs written back to disk. *)
Definition writes t : list ConfigFile :=
  omap (fun e => match e with EWriteConfig main => Some main | _ => None end) t.

Definition postinstalls t : list (jsstring * PostinstallOptions) :=
  omap (fun e => match e with
                 | EPostinstallAddon name o => Some (name, o)
                 | _ => None
                 end) t.

(** The messages logged at one level. *)
Definition logged (l : level) t : list jsstring :=
  omap (fun e => match e with
                 | ELogger l' message =>
                     match l, l' with
                     | LError, LError | LWarn, LWarn | LLog, LLog => Some message
                     | _, _ => None
                     end
                 | _ => None
                 end) t.

Definition isInstall e : bool :=
  match e with EAddDependencies _ _ => true | _ => false end.

(** The config mutation and the config write. *)
Definition touchesConfig e : bool :=
  match e with
  | EAppendValueToArray _ _ | EWriteConfig _ => true
  | _ => false
  end.

(** Every event that touches the config comes after an install call. *)
Definition InstallPrecedes t : Prop :=
  forall i e, t !! i = Some e -> touchesConfig e = true ->
  exists j e', j < i /\ t !! j = Some e' /\ isInstall e' = true.

(** The same, as a scan of the trace: [seen] tells whether an install call
    has been passed. *)
Fixpoint installFirst (seen : bool) t : bool :=
  match t with
  | [] => true
  | e :: t' =>
      if touchesConfig e then seen && installFirst seen t'
      else installFirst (seen || isInstall e) t'
  end.

(** The first steps of [add] succeed: the package manifest is read, the
    project lookup finds the main config [mainConfig], the config
    directory is [configDir] and the main config module loads as
    [required]. *)
Definition Located (w : World ConfigFile) (options : CLIOptions)
    (configDir mainConfig : jsstring) (required : value) : Prop :=
  let packageManager := getPackageManager w (opt_packageManager options) in
  exists packageJson info,
    retrievePackageJson packageManager = Returns packageJson /\
    getStorybookInfo w packageJson (opt_configDir options) = Returns info /\
    resolveConfigDir (opt_configDir options) (info_configDir info)
      = Some configDir /\
    info_mainConfig info = Some mainConfig /\
    str_truthy mainConfig = true /\
    snd (requireMain w configDir) = Ok required.

(** All the steps before the version is resolved succeed: moreover the
    main config does not list the addon, [readConfig] answers [main] and
    the Storybook version is detected as [storybookVersion]. *)
Definition Ready (w : World ConfigFile) (addon : jsstring) (options : CLIOptions)
    (configDir mainConfig : jsstring) (main : ConfigFile)
    (storybookVersion : option jsstring) : Prop :=
  let packageManager := getPackageManager w (opt_packageManager options) in
  exists required,
    Located w options configDir mainConfig required /\
    checkInstalled (fst (getVersionSpecifier addon)) required = Ok false /\
    readConfig w mainConfig = Returns main /\
    getCoercedStorybookVersion w packageManager = Returns storybookVersion.

End Observations.

(** An entry of [addons] of the declared type [string | { name: string }]. *)
Definition isAddonEntry (entry : value) : bool :=
  match entry with
  | VString _ => true
  | VObject props =>
      match assoc (js "name") props with
      | Some (VString _) => true
      | _ => false
      end
  | _ => false
  end.

(** The name such an entry registers. *)
Definition entryName (entry : value) : option jsstring :=
  match entry with
  | VString s => Some s
  | VObject props =>
      match assoc (js "name") props with
      | Some (VString s) => Some s
      | _ => None
      end
  | _ => None
  end.

(** ** The Vue 3 Vite preset *)

Module VuePreset.

(** Modelled from the spec: [hasVitePlugins] of the Vite builder, which is
    not under src/: a name-based membership test over a plugin list. A
    plugin is an object with a [name]; a list inside the list is searched
    as well. *)
Fixpoint hasVitePlugins (plugins : value) (names : list jsstring) : bool :=
  match plugins with
  | VArray l => existsb (fun p => hasVitePlugins p names) l
  | VObject props =>
      match assoc (js "name") props with
      | Some (VString n) => bool_decide (n ∈ names)
      | _ => false
      end
  | _ => false
  end.





(** [config.plugins ?? []] *)
Definition pluginsOf (config : list (jsstring * value)) : value :=
  match assoc (js "plugins") config with
  | Some v => if is_nullish v then VArray [] else v
  | None => VArray []
  end.


Section ViteFinal.

(** The plugin [vue()] of @vitejs/plugin-vue makes and the plugin
    [vueComponentMeta()] makes. *)
Variables (vue vueComponentMeta : value).

(** The plugins [viteFinal] collects before it merges. *)
Definition newPlugins (config : list (jsstring * value)) : list value :=
  (if negb (hasVitePlugins (pluginsOf config) [js "vite:vue"])
   then [vue] else [])
  ++ [vueComponentMeta].


End ViteFinal.







Definition vuePlugin : value :=
  VObject [(js "name", VString (js "vite:vue"))].
Definition metaPlugin : value :=
  VObject [(js "name", VString (js "storybook:vue-component-meta-plugin"))].
Definition reactPlugin : value :=
  VObject [(js "name", VString (js "vite:react-babel"))].


End VuePreset.

(** ** A model of the semver package, for concrete projects *)

Module SemVer.

Definition isDigit (c : N) : bool := cls_match CDigit c.

(** [[a-zA-Z0-9-]] *)
Definition isIdentChar (c : N) : bool :=
  isDigit c || ((65 <=? c)%N && (c <=? 90)%N) || ((97 <=? c)%N && (c <=? 122)%N)
  || (c =? 45)%N.

(** The white space and line terminators [String.prototype.trim] drops. *)
Definition isSpace (c : N) : bool :=
  (c =? 9)%N || (c =? 10)%N || (c =? 11)%N || (c =? 12)%N || (c =? 13)%N
  || (c =? 32)%N || (c =? 160)%N || (c =? 5760)%N
  || ((8192 <=? c)%N && (c <=? 8202)%N)
  || (c =? 8232)%N || (c =? 8233)%N || (c =? 8239)%N || (c =? 8287)%N
  || (c =? 12288)%N || (c =? 65279)%N.

Fixpoint trimStart (s : jsstring) : jsstring :=
  match s with
  | c :: s' => if isSpace c then trimStart s' else s
  | [] => []
  end.

Definition trim (s : jsstring) : jsstring :=
  reverse (trimStart (reverse (trimStart s))).

(** [s.split(c)] for a one-character separator. *)
Fixpoint split (c : N) (s : jsstring) : list jsstring :=
  match s with
  | [] => [[]]
  | x :: s' =>
      if (x =? c)%N then [] :: split c s'
      else match split c s' with
           | part :: parts => (x :: part) :: parts
           | [] => [[x]]
           end
  end.

(** The input before and after the first [c], when there is one. *)
Fixpoint cut (c : N) (s : jsstring) : jsstring * option jsstring :=
  match s with
  | [] => ([], None)
  | x :: s' =>
      if (x =? c)%N then ([], Some s')
      else let '(a, b) := cut c s' in (x :: a, b)
  end.

Definition numberOf (s : jsstring) : N :=
  foldl (fun acc c => (10 * acc + (c - 48))%N) 0%N s.

Definition MAX_SAFE_INTEGER : N := 9007199254740991%N.
Definition MAX_LENGTH : nat := 256.

(** [0|[1-9]\d*] *)
Definition isNumericIdentifier (s : jsstring) : bool :=
  match s with
  | [] => false
  | [c] => isDigit c
  | c :: _ => isDigit c && negb (c =? 48)%N && forallb isDigit s
  end.

(** [0|[1-9]\d*|\d*[a-zA-Z-][a-zA-Z0-9-]*] *)
Definition isPrereleaseIdentifier (s : jsstring) : bool :=
  isNumericIdentifier s
  || (forallb isIdentChar s && existsb (fun c => negb (isDigit c)) s).

(** [[0-9A-Za-z-]+] *)
Definition isBuildIdentifier (s : jsstring) : bool :=
  str_truthy s && forallb isIdentChar s.

(** [SemVer.valid(version)] without options (strict): the version is
    trimmed, an optional [v] is dropped, then come MAJOR.MINOR.PATCH,
    an optional [-prerelease] and an optional [+build]; the answer is the
    version without the [v] and the build, [null] for anything else. *)
Definition valid (version : jsstring) : option jsstring :=
  if bool_decide (MAX_LENGTH < length version) then None else
  let s := trim version in
  let s := match s with c :: s' => if (c =? 118)%N then s' else s | [] => s end in
  let '(s, build) := cut 43 s in
  let '(core, prerelease) := cut 45 s in
  let buildOk :=
    match build with
    | None => true
    | Some b => forallb isBuildIdentifier (split 46 b)
    end in
  let prereleaseOk :=
    match prerelease with
    | None => true
    | Some p => forallb isPrereleaseIdentifier (split 46 p)
    end in
  let coreOk :=
    match split 46 core with
    | [major; minor; patch] =>
        forallb (fun n => isNumericIdentifier n
                          && (numberOf n <=? MAX_SAFE_INTEGER)%N)
                [major; minor; patch]
    | _ => false
    end in
  if coreOk && prereleaseOk && buildOk
  then Some (core ++ match prerelease with
                     | Some p => 45%N :: p
                     | None => []
                     end)
  else None.

End SemVer.

(** ** Concrete projects *)

Definition npm : PackageManager := {|
  pm_type := js "npm";
  retrievePackageJson := Returns (VObject [(js "name", VString (js "app"))]);
  latestVersion := fun _ => Returns (js "2.1.0");
  addDependencies := fun _ _ => Returns tt
|}.

(** A package manager whose registry cannot be reached. *)
Definition offline : PackageManager := {|
  pm_type := js "npm";
  retrievePackageJson := Returns (VObject [(js "name", VString (js "app"))]);
  latestVersion := fun _ => Throws (VString (js "ENOTFOUND"));
  addDependencies := fun _ _ => Throws (VString (js "ENOTFOUND"))
|}.

(** A project: the package manager, what the project lookup finds and what
    the main config module exports. The config handle is the list of the
    values appended to it; Storybook 8.0.0 is installed and
    [@storybook/addon-docs] is one of its core packages. *)
Definition project (pm : PackageManager) (info : StorybookInfo) (main : value)
  : World (list (list jsstring * jsstring)) := {|
  getPackageManager := fun _ => pm;
  getStorybookInfo := fun _ _ => Returns info;
  isAbsolute := fun p => match p with 47%N :: _ => true | _ => false end;
  pathJoin := fun a b => a ++ js "/" ++ b;
  cwd := js "/app";
  serverRequire := fun _ => Returns main;
  readConfig := fun _ => Returns [];
  appendValueToArray := fun path v cfg => Returns (cfg ++ [(path, v)]);
  writeConfig := fun _ => Returns tt;
  getCoercedStorybookVersion := fun _ => Returns (Some (js "8.0.0"));
  versions := {[ js "@storybook/addon-docs" := js "8.0.0" ]};
  SemVer_valid := SemVer.valid;
  postinstallAddon := fun _ _ => Returns tt
|}.

Definition found : StorybookInfo := {|
  info_mainConfig := Some (js ".storybook/main.js");
  info_configDir := Some (js ".storybook")
|}.


(** A main config that registers no addon. *)
Definition emptyMain : value := VObject [(js "addons", VArray [])].

Definition noOptions : CLIOptions := {|
  opt_packageManager := None;
  opt_configDir := None;
  opt_skipPostinstall := false
|}.


(** ** Vocabulary for further properties *)

(** A name group 1 of the specifier pattern can capture: an optional
    leading [@], then at least one character, none of them an [@]. *)
Definition isPackageName (name : jsstring) : bool :=
  let body :=
    match name with
    | x :: rest => if (x =? chr "@")%N then rest else name
    | [] => []
    end in
  str_truthy body && forallb (fun c => negb (c =? chr "@")%N) body.

(** A version group 2 can capture: at least one character, no line
    terminator. *)
Definition isVersionText (version : jsstring) : bool :=
  str_truthy version && forallb (fun c => negb (isLineTerminator c)) version.

(** The options with [skipPostinstall] set. *)
Definition skippingPostinstall (options : CLIOptions) : CLIOptions := {|
  opt_packageManager := opt_packageManager options;
  opt_configDir := opt_configDir options;
  opt_skipPostinstall := true
|}.

(** The project lookup finds no main config. *)
Definition notFound : StorybookInfo := {|
  info_mainConfig := None;
  info_configDir := Some (js ".storybook")
|}.

(** A world with another table of core packages. *)
Definition withVersions {ConfigFile : Type} (table : gmap jsstring jsstring)
    (w : World ConfigFile) : World ConfigFile := {|
  getPackageManager := getPackageManager w;
  getStorybookInfo := getStorybookInfo w;
  isAbsolute := isAbsolute w;
  pathJoin := pathJoin w;
  cwd := cwd w;
  serverRequire := serverRequire w;
  readConfig := readConfig w;
  appendValueToArray := appendValueToArray w;
  writeConfig := writeConfig w;
  getCoercedStorybookVersion := getCoercedStorybookVersion w;
  versions := table;
  SemVer_valid := SemVer_valid w;
  postinstallAddon := postinstallAddon w
|}.

(** A world in which the config file cannot be written. *)
Definition readOnly {ConfigFile : Type} (w : World ConfigFile) : World ConfigFile := {|
  getPackageManager := getPackageManager w;
  getStorybookInfo := getStorybookInfo w;
  isAbsolute := isAbsolute w;
  pathJoin := pathJoin w;
  cwd := cwd w;
  serverRequire := serverRequire w;
  readConfig := readConfig w;
  appendValueToArray := appendValueToArray w;
  writeConfig := fun _ => Throws (VString (js "EACCES"));
  getCoercedStorybookVersion := getCoercedStorybookVersion w;
  versions := versions w;
  SemVer_valid := SemVer_valid w;
  postinstallAddon := postinstallAddon w
|}.

Section MoreObservations.

Context {ConfigFile : Type}.
Implicit Types (t : list (event ConfigFile)) (e : event ConfigFile).

(** The names asked of the registry. *)
Definition queries t : list jsstring :=
  omap (fun e => match e with ELatestVersion name => Some name | _ => None end) t.

(** The config files read with [readConfig]. *)
Definition reads t : list jsstring :=
  omap (fun e => match e with EReadConfig file => Some file | _ => None end) t.

(** The modules loaded with [serverRequire]. *)
Definition requires t : list jsstring :=
  omap (fun e => match e with EServerRequire file => Some file | _ => None end) t.

Definition isPostinstall e : bool :=
  match e with EPostinstallAddon _ _ => true | _ => false end.

(** The trace without its calls to the post-install hook. *)
Definition withoutPostinstall t : list (event ConfigFile) :=
  List.filter (fun e => negb (isPostinstall e)) t.

End MoreObservations.

(** * Proofs *)

(** ** The matcher on the two patterns *)

Lemma untilAt_spec s :
  s = (untilAt s).1 ++ (untilAt s).2 /\
  Forall (fun x => cls_match (CNotChar (chr "@")) x = true) (untilAt s).1 /\
  ((untilAt s).2 = [] \/ exists v, (untilAt s).2 = chr "@" :: v).
Proof.
  induction s as [|x s IH]; simpl.
  - split; [done|]. split; [constructor|]. by left.
  - destruct (N.eqb_spec x (chr "@")) as [->|Hne]; simpl.
    + split; [done|]. split; [constructor|]. right. by eexists.
    + destruct (untilAt s) as [a b]; simpl in *.
      destruct IH as (-> & Hall & Hb). split; [done|]. split; [|done].
      constructor; [|done]. simpl. by apply negb_true_iff, N.eqb_neq.
Qed.

(** [k+] fails where no character of the class stands. *)
Lemma rplus_stop k i s c K :
  (s = [] \/ exists y r, s = y :: r /\ cls_match k y = false) ->
  rplus k i s c K = None.
Proof. intros [->|(y & r & -> & Hy)]; simpl; [done|]. by rewrite Hy. Qed.

(** [k+] before a continuation that refuses to go on at a character of the
    class: only the longest run can match. *)
Lemma rplus_greedy k run rest i c K :
  run <> [] ->
  Forall (fun x => cls_match k x = true) run ->
  (rest = [] \/ exists y r, rest = y :: r /\ cls_match k y = false) ->
  (forall j x s c', cls_match k x = true -> K j (x :: s) c' = None) ->
  rplus k i (run ++ rest) c K = K (i + length run) rest c.
Proof.
  intros Hne Hall Hrest HK. revert i.
  induction run as [|x run IH]; [done|]; intros i.
  apply Forall_cons in Hall as [Hx Hall]. simpl. rewrite Hx.
  destruct run as [|y run'].
  - simpl. rewrite rplus_stop by done. by replace (i + 1) with (S i) by lia.
  - rewrite IH by done. simpl length.
    replace (S i + S (length run')) with (i + S (S (length run'))) by lia.
    destruct (K _ rest c); [done|].
    apply Forall_cons in Hall as [Hy _]. simpl. by apply HK.
Qed.

(** [k+] before a continuation that wants the end of the input: the whole
    rest must be in the class. *)
Lemma rplus_all k v i c K :
  (forall j x s c', K j (x :: s) c' = None) ->
  rplus k i v c K =
    if str_truthy v && forallb (cls_match k) v then K (i + length v) [] c else None.
Proof.
  intros HK. revert i. induction v as [|x v IH]; intros i; [done|].
  simpl. destruct (cls_match k x); [|done]. simpl. rewrite IH.
  destruct v as [|y v']; simpl.
  - by replace (i + 1) with (S i) by lia.
  - destruct (cls_match k y && forallb (cls_match k) v') eqn:E.
    + replace (S (i + S (length v'))) with (i + S (S (length v'))) by lia.
      destruct (K _ [] c); [done|]. apply HK.
    + apply HK.
Qed.

(** A pattern that starts with [^] matches from index 0 or not at all. *)
Lemma exec_from_bol r n i s : 0 < i -> exec_from (RSeq RBol r) n i s = None.
Proof.
  revert i. induction s as [|x s IH]; intros i Hi; simpl.
  - rewrite bool_decide_eq_false_2 by lia. done.
  - rewrite bool_decide_eq_false_2 by lia. apply IH. lia.
Qed.

Lemma exec_bol r n s :
  exec (RSeq RBol r) n s = rmatch r 0 s (replicate (S n) None) (fun _ _ c => Some c).
Proof.
  unfold exec. destruct s as [|x s]; simpl.
  - by destruct (rmatch r 0 [] _ _).
  - destruct (rmatch r 0 (x :: s) _ _); [done|]. apply exec_from_bol. lia.
Qed.

Lemma re_version_stop j x s c :
  cls_match (CNotChar (chr "@")) x = true ->
  rmatch re_version j (x :: s) c (fun _ _ c => Some c) = None.
Proof.
  intros Hx. simpl in *. apply negb_true_iff in Hx. by rewrite Hx.
Qed.

Lemma re_version_eval j rest c :
  (rest = [] \/ exists v, rest = chr "@" :: v) ->
  rmatch re_version j rest c (fun _ _ c => Some c) =
    match rest with
    | [] => Some c
    | _ :: v =>
        if str_truthy v && forallb (fun x => negb (isLineTerminator x)) v
        then Some (<[2:=Some v]> c) else None
    end.
Proof.
  intros [->|[v ->]]; [done|].
  cbn [rmatch re_version cls_match]. rewrite N.eqb_refl.
  rewrite rplus_all by (intros; by case_bool_decide).
  change (forallb (cls_match CDot) v) with (forallb (fun x => negb (isLineTerminator x)) v).
  destruct (str_truthy v && _) eqn:E; [|done].
  rewrite bool_decide_eq_false_2 by lia.
  replace (S j + length v - S j) with (length v) by lia.
  by rewrite firstn_all.
Qed.

Lemma re_name_eval s c (K : kont) :
  (forall j x r c', cls_match (CNotChar (chr "@")) x = true -> K j (x :: r) c' = None) ->
  rmatch re_name 0 s c K =
    let '(scope, body) :=
      match s with
      | x :: s' => if (x =? chr "@")%N then ([x], s') else ([], s)
      | [] => ([], s)
      end in
    match untilAt body with
    | ((_ :: _) as name, rest) => K (length (scope ++ name)) rest c
    | ([], _) => None
    end.
Proof.
  intros HK.
  assert (Hrun : forall i body,
    rplus (CNotChar (chr "@")) i body c K =
      match untilAt body with
      | ((_ :: _) as name, rest) => K (i + length name) rest c
      | ([], _) => None
      end).
  { intros i body. destruct (untilAt_spec body) as (Hb & Hall & Hrest).
    destruct (untilAt body) as [[|n name] rest]; simpl in *; subst body.
    - apply rplus_stop. destruct Hrest as [->|[v ->]]; [by left|].
      right. by exists (chr "@"), v.
    - change (n :: name ++ rest) with ((n :: name) ++ rest).
      rewrite (rplus_greedy _ (n :: name)); [done..| |done].
      destruct Hrest as [->|[v ->]]; [by left|]. right. by exists (chr "@"), v. }
  cbn [rmatch re_name cls_match].
  destruct s as [|x s'].
  - by rewrite Hrun.
  - destruct (N.eqb_spec x (chr "@")) as [->|Hne].
    + rewrite bool_decide_eq_false_2 by lia. rewrite Hrun.
      destruct (untilAt s') as [[|n name] rest]; simpl; [done|].
      by destruct (K _ rest c).
    + by rewrite Hrun.
Qed.

(** ** [getVersionSpecifier] *)

(** What the pattern captures, for every input. *)
Lemma exec_specifier addon :
  exec re_specifier 2 addon =
    let '(scope, body) :=
      match addon with
      | x :: s' => if (x =? chr "@")%N then ([x], s') else ([], addon)
      | [] => ([], addon)
      end in
    match untilAt body with
    | ((_ :: _) as name, []) => Some [None; Some (scope ++ name); None]
    | ((_ :: _) as name, _ :: version) =>
        if str_truthy version && forallb (fun c => negb (isLineTerminator c)) version
        then Some [None; Some (scope ++ name); Some version]
        else None
    | ([], _) => None
    end.
Proof.
  unfold re_specifier. rewrite exec_bol. cbn [rmatch replicate].
  rewrite re_name_eval.
  2:{ intros j x r c' Hx. by apply re_version_stop. }
  assert (Hsb : addon =
    (match addon with
     | [] => ([], addon)
     | x :: s' => if (x =? chr "@")%N then ([x], s') else ([], addon)
     end).1 ++
    (match addon with
     | [] => ([], addon)
     | x :: s' => if (x =? chr "@")%N then ([x], s') else ([], addon)
     end).2).
  { destruct addon as [|x s']; [done|]. by destruct (x =? chr "@")%N. }
  destruct (match addon with [] => _ | _ :: _ => _ end) as [scope body].
  cbn [fst snd] in Hsb.
  destruct (untilAt_spec body) as (Hb & _ & Hrest).
  destruct (untilAt body) as [[|n name] rest]; cbn [fst snd] in *; [done|].
  rewrite re_version_eval by done.
  assert (Htake : take (length (scope ++ n :: name) - 0) addon = scope ++ n :: name).
  { rewrite Hsb, Hb, Nat.sub_0_r, (app_assoc scope (n :: name) rest).
    by rewrite take_app_length. }
  rewrite Htake.
  destruct rest as [|a version]; [done|].
  by destruct (str_truthy version && _).
Qed.

Lemma specifier_group1_defined addon groups :
  exec re_specifier 2 addon = Some groups -> is_Some (group groups 1).
Proof.
  rewrite exec_specifier.
  destruct (match addon with [] => _ | _ :: _ => _ end) as [scope body].
  destruct (untilAt body) as [[|n name] [|a version]]; try done.
  - intros [= <-]. by eexists.
  - destruct (str_truthy version && _); [|done]. intros [= <-]. by eexists.
Qed.

(** The regular expression and the split written by hand agree. *)
Lemma getVersionSpecifier_split addon : getVersionSpecifier addon = splitSpecifier addon.
Proof.
  unfold getVersionSpecifier, splitSpecifier. rewrite exec_specifier.
  destruct (match addon with [] => _ | _ :: _ => _ end) as [scope body].
  destruct (untilAt body) as [[|n name] [|a version]]; try done.
  by destruct (str_truthy version && _).
Qed.

(** A version taken from the specifier is never the empty string. *)
Lemma specifier_version_truthy addon v :
  (getVersionSpecifier addon).2 = Some v -> str_truthy v = true.
Proof.
  rewrite getVersionSpecifier_split. unfold splitSpecifier.
  destruct (match addon with [] => _ | _ :: _ => _ end) as [scope body].
  destruct (untilAt body) as [[|n name] [|a version]]; simpl; try done.
  destruct (str_truthy version) eqn:E; simpl; [|done].
  destruct (forallb _ version); simpl; congruence.
Qed.

Example specifier_scoped :
  getVersionSpecifier (js "@storybook/addon-docs@7.0.1")
    = (js "@storybook/addon-docs", Some (js "7.0.1")).
Proof. vm_compute. reflexivity. Qed.

Example specifier_plain : getVersionSpecifier (js "name") = (js "name", None).
Proof. vm_compute. reflexivity. Qed.

Example specifier_tag :
  getVersionSpecifier (js "@scope/name@next") = (js "@scope/name", Some (js "next")).
Proof. vm_compute. reflexivity. Qed.

(** C3 (amended): for every non-empty input the name is non-empty; when
    [getVersionSpecifier] answers a version, the input is the name, an [@]
    and the version, the version is non-empty and the name holds no [@]
    after its first character: the split is at the first [@] that is not
    the leading one. When it answers no version, the name is the whole
    input. *)
Theorem C3_specifier_split_at_first_at (addon : jsstring) :
  let name := (getVersionSpecifier addon).1 in
  let version := (getVersionSpecifier addon).2 in
  (addon <> [] -> name <> []) /\
  match version with
  | Some v =>
      addon = name ++ chr "@" :: v /\ v <> [] /\ name <> [] /\
      chr "@" ∉ drop 1 name
  | None => name = addon
  end.
Proof.
  cbv zeta. rewrite getVersionSpecifier_split. unfold splitSpecifier.
  assert (Hsb : addon =
    (match addon with
     | [] => ([], addon)
     | x :: s' => if (x =? chr "@")%N then ([x], s') else ([], addon)
     end).1 ++
    (match addon with
     | [] => ([], addon)
     | x :: s' => if (x =? chr "@")%N then ([x], s') else ([], addon)
     end).2 /\
    length (match addon with
     | [] => ([], addon)
     | x :: s' => if (x =? chr "@")%N then ([x], s') else ([], addon)
     end).1 <= 1).
  { destruct addon as [|x s']; [split; [done|simpl; lia]|].
    destruct (x =? chr "@")%N; simpl; split; (done || lia). }
  destruct (match addon with [] => _ | _ :: _ => _ end) as [scope body].
  cbn [fst snd] in Hsb. destruct Hsb as [Hsb Hscope].
  destruct (untilAt_spec body) as (Hb & Hall & Hrest).
  destruct (untilAt body) as [[|n name] rest]; cbn [fst snd] in *; [by split|].
  assert (Hnoat : chr "@" ∉ drop 1 (scope ++ n :: name)).
  { intros Hin. assert (chr "@" ∈ n :: name) as Hin'.
    { destruct scope as [|x [|y scope]]; simpl in *; [|done|lia].
      rewrite drop_0 in Hin. apply elem_of_cons. by right. }
    rewrite Forall_forall in Hall. apply Hall in Hin'.
    by vm_compute in Hin'. }
  destruct rest as [|a version].
  - cbn [fst snd]. split; [by destruct scope|]. subst. by rewrite app_nil_r.
  - destruct Hrest as [|[v [= -> ->]]]; [done|].
    destruct (str_truthy v) eqn:Hv; cbn [andb]; [|done].
    destruct (forallb _ v); cbn [fst snd]; [|done].
    split; [by destruct scope|].
    split; [by rewrite Hsb, Hb, <- app_assoc|].
    split; [by destruct v|]. split; [by destruct scope|done].
Qed.

(** C3 fails as stated: the input [a@b@c] is split at its first [@], not
    at its last, and the empty input gives an empty name. *)
Lemma C3_counterexample :
  getVersionSpecifier (js "a@b@c") = (js "a", Some (js "b@c")) /\
  (getVersionSpecifier (js "a@b@c")).1 <> js "a@b" /\
  (getVersionSpecifier (js "")).1 = [].
Proof. vm_compute. repeat split; discriminate. Qed.

(** ** [isValidVersion] *)

Lemma exec_digits v :
  exec re_digits 0 v =
    if str_truthy v && forallb (cls_match CDigit) v then Some [None] else None.
Proof.
  unfold re_digits. rewrite exec_bol. cbn [rmatch replicate].
  rewrite rplus_all by done. by destruct (_ && _).
Qed.

Lemma isValidVersion_eq valid v :
  isValidVersion valid v =
    opt_truthy (valid v) || (str_truthy v && forallb (cls_match CDigit) v).
Proof.
  unfold isValidVersion. rewrite exec_digits.
  by destruct (str_truthy v && _).
Qed.

(** ** [checkInstalled] *)

(** [endsWith] is the suffix relation. *)
Lemma endsWith_suffix s t : endsWith s t = true <-> t `suffix_of` s.
Proof.
  unfold endsWith, jsstring_eqb. rewrite andb_true_iff, !bool_decide_eq_true. split.
  - intros [Hlen Hdrop]. exists (take (length s - length t) s).
    by rewrite <- Hdrop at 2; rewrite take_drop.
  - intros [k ->]. rewrite length_app. split; [lia|].
    replace (length k + length t - length t) with (length k) by lia.
    by rewrite drop_app_length.
Qed.

Lemma endsWith_truthy s t :
  endsWith s t = true -> str_truthy t = true -> str_truthy s = true.
Proof.
  unfold endsWith. intros [Hlen _]%andb_true_iff Ht.
  apply bool_decide_eq_true in Hlen.
  destruct s, t; simpl in *; try done. lia.
Qed.




Lemma entryMatches_typed name entry :
  isAddonEntry entry = true ->
  exists n, entryName entry = Some n /\ entryMatches name entry = Ok (endsWith n name).
Proof.
  destruct entry as [| | | |s| |props]; simpl; try done.
  - intros _. by exists s.
  - unfold entryMatches, getProp.
    destruct (assoc (js "name") props) as [[| | | |s| |]|]; simpl; try done.
    intros _. by exists s.
Qed.

Lemma find_registered name entries :
  Forall (fun entry => isAddonEntry entry = true) entries ->
  (exists entry n, entry ∈ entries /\ entryName entry = Some n /\ endsWith n name = true) ->
  exists x n, find (entryMatches name) entries = Ok x /\
              entryName x = Some n /\ endsWith n name = true.
Proof.
  induction entries as [|x l IH]; intros Hall (entry & n & Hin & Hn & Hends).
  - by apply elem_of_nil in Hin.
  - apply Forall_cons in Hall as [Hx Hall].
    destruct (entryMatches_typed name x Hx) as (m & Hm & Hmatch).
    simpl. rewrite Hmatch. destruct (endsWith m name) eqn:E.
    + by exists x, m.
    + apply IH; [done|]. apply elem_of_cons in Hin as [->|Hin].
      * congruence.
      * by exists entry, n.
Qed.

Lemma checkInstalled_registered name main entries :
  getProp main (js "addons") = Ok (VArray entries) ->
  Forall (fun entry => isAddonEntry entry = true) entries ->
  (exists entry n, entry ∈ entries /\ entryName entry = Some n /\ endsWith n name = true) ->
  str_truthy name = true ->
  checkInstalled name main = Ok true.
Proof.
  intros Hget Hall Hex Hname. unfold checkInstalled. rewrite Hget.
  destruct (find_registered name entries Hall Hex) as (x & n & -> & Hn & Hends).
  f_equal. destruct x as [| | | |s| |props]; simpl in *; try done.
  simplify_eq. by eapply endsWith_truthy.
Qed.

(** C10: [checkInstalled] answers [false], without throwing, for every main
    config object that has no [addons] field and for every one whose
    [addons] entries are objects without a [name] property. *)
Theorem C10_checkInstalled_total_on_malformed (addonName : jsstring)
    (props : list (jsstring * value)) :
  (assoc (js "addons") props = None ->
   checkInstalled addonName (VObject props) = Ok false) /\
  (forall entries,
     assoc (js "addons") props = Some (VArray entries) ->
     Forall (fun entry => exists ps, entry = VObject ps /\ assoc (js "name") ps = None)
            entries ->
     checkInstalled addonName (VObject props) = Ok false).
Proof.
  unfold checkInstalled, getProp. split.
  - by intros ->.
  - intros entries -> Hall.
    assert (find (entryMatches addonName) entries = Ok VUndefined) as Hfind.
    { induction Hall as [|x l (ps & -> & Hps) _ IH]; [done|].
      cbn [find entryMatches getProp]. by rewrite Hps. }
    cbn. by rewrite Hfind.
Qed.

Example checkInstalled_no_addons :
  checkInstalled (js "addon-docs") (VObject [(js "stories", VArray [])]) = Ok false.
Proof. reflexivity. Qed.

Example checkInstalled_nameless_entries :
  checkInstalled (js "addon-docs")
    (VObject [(js "addons",
               VArray [VObject []; VObject [(js "options", VObject [])]])])
    = Ok false.
Proof. reflexivity. Qed.

(** Other malformed configs do make it throw: a [null] entry, an [addons]
    field that is no list. *)
Example checkInstalled_null_entry :
  checkInstalled (js "addon-docs") (VObject [(js "addons", VArray [VNull])])
    = Err TypeError.
Proof. reflexivity. Qed.

Example checkInstalled_addons_not_a_list :
  checkInstalled (js "addon-docs") (VObject [(js "addons", VString (js "addon-docs"))])
    = Err TypeError.
Proof. reflexivity. Qed.

(** ** Traces *)

Section Traces.

Context {ConfigFile : Type}.
Implicit Types (t : list (event ConfigFile)).

Lemma installFirst_scan seen t :
  installFirst seen t = true ->
  forall i e, t !! i = Some e -> touchesConfig e = true ->
  seen = true \/ exists j e', j < i /\ t !! j = Some e' /\ isInstall e' = true.
Proof.
  revert seen. induction t as [|x t IH]; intros seen Hscan i e Hi He; [done|].
  simpl in Hscan. destruct i as [|i]; simpl in Hi.
  - simplify_eq. rewrite He in Hscan. left. by destruct seen.
  - destruct (touchesConfig x) eqn:Hx.
    + apply andb_true_iff in Hscan as [-> _]. by left.
    + destruct (IH _ Hscan i e Hi He) as [Hseen|(j & e' & Hj & He' & Hin)].
      * apply orb_true_iff in Hseen as [->|Hxi]; [by left|].
        right. exists 0, x. split; [lia|done].
      * right. exists (S j), e'. split; [lia|done].
Qed.

Lemma installFirst_sound t : installFirst false t = true -> InstallPrecedes t.
Proof.
  intros Hscan i e Hi He.
  by destruct (installFirst_scan _ _ Hscan i e Hi He).
Qed.

End Traces.

(** ** The workflow, step by step *)

Lemma resolveConfigDir_defined user inferred :
  exists configDir,
    resolveConfigDir user inferred = Some configDir /\
    str_truthy configDir = true /\
    (opt_truthy user = false -> opt_truthy inferred = false ->
     configDir = js ".storybook").
Proof.
  unfold resolveConfigDir, js_or.
  destruct user as [[|x a]|], inferred as [[|y b]|]; simpl; eauto.
  all: eexists; split; [done|]; split; [done|]; intros; done.
Qed.

(** The version comes from the input or from Storybook without any call, or
    from one query of the registry. *)
Lemma resolveVersion_cases {ConfigFile : Type} (w : World ConfigFile) pm name
    inputVersion storybookVersion :
  (exists v, resolveVersion w pm name inputVersion storybookVersion = ([], Ok v)) \/
  resolveVersion w pm name inputVersion storybookVersion =
    call (ELatestVersion name) (latestVersion pm name).
Proof.
  unfold resolveVersion.
  destruct (_ && _ && _), inputVersion as [[|x v]|], storybookVersion as [[|y sv]|];
    simpl; eauto.
Qed.

(** One step of the symbolic execution of [add]: case analysis on the answer
    of the next collaborator. The path of the main config file and the
    [?? {}] of [requireMain] are left as they are. *)
Ltac step :=
  first
    [ match goal with
      | |- context [resolveVersion ?w ?pm ?n ?iv ?sbv] =>
          let Hrv := fresh "Hrv" in
          destruct (resolveVersion_cases w pm n iv sbv) as [[? Hrv]|Hrv];
          rewrite Hrv in *; clear Hrv
      end
    | match goal with
      | |- context [match ?x with _ => _ end] =>
          lazymatch x with
          | serverRequire _ _ => destruct x eqn:?
          | checkInstalled _ _ => destruct x eqn:?
          | isAbsolute _ _ => fail
          | is_nullish _ => fail
          | context [match _ with _ => _ end] => fail
          | _ => destruct x eqn:?
          end
      end ];
  cbn [bind call lift logger ret throw fst snd app] in *; try congruence.

Ltac unfold_add :=
  unfold add, requireMain, warnOnMismatch in *;
  cbn [bind call lift logger ret throw fst snd app] in *.


Section Add.

Context {ConfigFile : Type}.
Implicit Types (w : World ConfigFile).


Lemma add_install_first w addon options :
  InstallPrecedes (add w addon options).1.
Proof.
  unfold_add.
  repeat step; apply installFirst_sound; reflexivity.
Qed.

Lemma add_install_failure w addon options dev specs e :
  (dev, specs) ∈ installs (add w addon options).1 ->
  addDependencies (getPackageManager w (opt_packageManager options)) dev specs = Throws e ->
  appends (add w addon options).1 = [] /\ writes (add w addon options).1 = [] /\
  (add w addon options).2 = Err (Thrown e).
Proof.
  unfold_add.
  repeat step; cbn [installs appends writes omap]; intros Hin Hthrow.
  all: try (by apply elem_of_nil in Hin).
  all: apply list_elem_of_singleton in Hin; simplify_eq; try congruence.
  all: by repeat split; congruence.
Qed.

(** When the main config is found and lists the addon, [add] logs the
    duplicate and stops. *)
Lemma add_located_duplicate w addon options configDir mainConfig required :
  Located w options configDir mainConfig required ->
  checkInstalled (getVersionSpecifier addon).1 required = Ok true ->
  (add w addon options).2 = Ok tt /\
  installs (add w addon options).1 = [] /\
  appends (add w addon options).1 = [] /\
  writes (add w addon options).1 = [] /\
  logged LError (add w addon options).1
    = [duplicateMessage (getVersionSpecifier addon).1 mainConfig].
Proof.
  intros (packageJson & info & Hpj & Hinfo & Hdir & Hmain & Htruthy & Hreq) Hcheck.
  unfold_add.
  destruct (getVersionSpecifier addon) as [name inputVersion]; cbn [fst snd] in *.
  rewrite Hpj; cbn [bind call fst snd app].
  rewrite Hinfo; cbn [bind call fst snd app].
  rewrite Hdir, Hmain, Htruthy; cbn [negb].
  destruct (serverRequire w _) as [m|]; cbn [bind call ret lift fst snd app] in *;
    [|done].
  injection Hreq as ->. by rewrite Hcheck.
Qed.

(** When every step before the version resolution succeeds and the version
    resolves to [version]: what is logged as a warning, what is installed,
    and what follows the install. *)
Lemma add_ready w addon options configDir mainConfig main sbv version :
  Ready w addon options configDir mainConfig main sbv ->
  (resolveVersion w (getPackageManager w (opt_packageManager options))
     (getVersionSpecifier addon).1 (getVersionSpecifier addon).2 sbv).2 = Ok version ->
  logged LWarn (add w addon options).1 =
    (if isCoreAddon w (getVersionSpecifier addon).1
        && negb (bool_decide (Some version = sbv))
     then [mismatchWarning (getVersionSpecifier addon).1] else []) /\
  installs (add w addon options).1 =
    [(true, [addonWithVersion w (getVersionSpecifier addon).1 version])] /\
  (addDependencies (getPackageManager w (opt_packageManager options)) true
     [addonWithVersion w (getVersionSpecifier addon).1 version] = Returns tt ->
   appends (add w addon options).1 = [([js "addons"], (getVersionSpecifier addon).1)] /\
   forall main',
     appendValueToArray w [js "addons"] (getVersionSpecifier addon).1 main = Returns main' ->
     writes (add w addon options).1 = [main'] /\
     (writeConfig w main' = Returns tt ->
      postinstalls (add w addon options).1 =
        if negb (opt_skipPostinstall options) && isCoreAddon w (getVersionSpecifier addon).1
        then [((getVersionSpecifier addon).1,
               {| po_packageManager :=
                    pm_type (getPackageManager w (opt_packageManager options));
                  po_configDir := configDir |})]
        else [])).
Proof.
  intros (required & (packageJson & info & Hpj & Hinfo & Hdir & Hmain & Htruthy
          & Hreq) & Hcheck & Hread & Hsbv) Hversion.
  unfold_add.
  destruct (getVersionSpecifier addon) as [name inputVersion]; cbn [fst snd] in *.
  rewrite Hpj; cbn [bind call fst snd app].
  rewrite Hinfo; cbn [bind call fst snd app].
  rewrite Hdir, Hmain, Htruthy; cbn [negb].
  destruct (serverRequire w _) as [m|]; cbn [bind call ret lift fst snd app] in *;
    [|done].
  injection Hreq as ->. rewrite Hcheck, Hread, Hsbv.
  cbn [bind call ret lift logger fst snd app].
  repeat step.
  all: repeat split; intros; simplify_eq; try congruence; reflexivity.
Qed.

End Add.

(** The concrete projects are ready whenever their main config does not
    list the addon. *)
Lemma project_ready pm main addon :
  retrievePackageJson pm = Returns (VObject [(js "name", VString (js "app"))]) ->
  checkInstalled (getVersionSpecifier addon).1
                 (if is_nullish main then VObject [] else main) = Ok false ->
  Ready (project pm found main) addon noOptions (js ".storybook")
        (js ".storybook/main.js") [] (Some (js "8.0.0")).
Proof.
  intros Hpj Hcheck.
  exists (if is_nullish main then VObject [] else main).
  split; [|done].
  exists (VObject [(js "name", VString (js "app"))]), found.
  repeat split; done.
Qed.

(** ** The claims about [add] *)

Section Claims.

Context {ConfigFile : Type}.
Implicit Types (w : World ConfigFile).

(** C1 (amended): on a project whose main config is found and does not
    list the addon, where 7.0.1 is a valid semantic version,
    [@storybook/addon-docs] is a core addon and the install and the config
    steps succeed, [add] with the specifier [@storybook/addon-docs@7.0.1]
    makes exactly one install call, for the spec
    [@storybook/addon-docs@^7.0.1] (with a caret), appends the bare name
    [@storybook/addon-docs] to [addons] exactly once, writes the config
    exactly once and, unless [skipPostinstall] is set, calls the
    post-install hook exactly once. *)
Theorem C1_add_docs_installs_caret_spec w (options : CLIOptions)
    (configDir mainConfig : jsstring) (main main' : ConfigFile)
    (storybookVersion : option jsstring) :
  let addon := js "@storybook/addon-docs@7.0.1" in
  let name := js "@storybook/addon-docs" in
  let spec := js "@storybook/addon-docs@^7.0.1" in
  let packageManager := getPackageManager w (opt_packageManager options) in
  let t := (add w addon options).1 in
  Ready w addon options configDir mainConfig main storybookVersion ->
  opt_truthy (SemVer_valid w (js "7.0.1")) = true ->
  isCoreAddon w name = true ->
  addDependencies packageManager true [spec] = Returns tt ->
  appendValueToArray w [js "addons"] name main = Returns main' ->
  writeConfig w main' = Returns tt ->
  installs t = [(true, [spec])] /\
  appends t = [([js "addons"], name)] /\
  writes t = [main'] /\
  postinstalls t =
    if opt_skipPostinstall options then []
    else [(name, {| po_packageManager := pm_type packageManager;
                    po_configDir := configDir |})].
Proof.
  cbv zeta. intros Hready Hvalid Hcore Hinstall Happend Hwrite.
  assert (Hspec : addonWithVersion w (js "@storybook/addon-docs") (js "7.0.1")
                  = js "@storybook/addon-docs@^7.0.1").
  { unfold addonWithVersion. rewrite isValidVersion_eq, Hvalid. reflexivity. }
  destruct (add_ready w _ options _ _ _ _ (js "7.0.1") Hready)
    as (_ & Hi & Hrest).
  { rewrite specifier_scoped. reflexivity. }
  rewrite specifier_scoped in Hi, Hrest. cbn [fst snd] in Hi, Hrest.
  rewrite Hspec in Hi, Hrest. rewrite Hcore in Hrest.
  destruct (Hrest Hinstall) as (Ha & Hw).
  destruct (Hw main' Happend) as (Hw' & Hp).
  rewrite Hi, Ha, Hw', (Hp Hwrite). by destruct (opt_skipPostinstall options).
Qed.


(** C4: the version is the one of the specifier when there is one; else
    the Storybook version when the addon is a core addon and that version
    is available; else what [latestVersion] answers, which is then asked
    exactly once. The resolved version is the one that gets installed. *)
Theorem C4_version_precedence w (pm : PackageManager) (addon : jsstring)
    (storybookVersion : option jsstring) :
  let name := (getVersionSpecifier addon).1 in
  let inputVersion := (getVersionSpecifier addon).2 in
  (forall v, inputVersion = Some v ->
     resolveVersion w pm name inputVersion storybookVersion = ([], Ok v)) /\
  (inputVersion = None -> isCoreAddon w name = true ->
   forall sv, storybookVersion = Some sv -> str_truthy sv = true ->
     resolveVersion w pm name inputVersion storybookVersion = ([], Ok sv)) /\
  (inputVersion = None ->
   isCoreAddon w name && opt_truthy storybookVersion = false ->
     resolveVersion w pm name inputVersion storybookVersion =
       ([ELatestVersion name],
        match latestVersion pm name with
        | Returns latest => Ok latest
        | Throws e => Err (Thrown e)
        end)) /\
  (forall options configDir mainConfig main version,
     pm = getPackageManager w (opt_packageManager options) ->
     Ready w addon options configDir mainConfig main storybookVersion ->
     (resolveVersion w pm name inputVersion storybookVersion).2 = Ok version ->
     installs (add w addon options).1 = [(true, [addonWithVersion w name version])]).
Proof.
  cbv zeta. repeat split.
  - intros v Hv. pose proof (specifier_version_truthy _ _ Hv) as Htruthy.
    rewrite Hv. unfold resolveVersion. cbn [opt_truthy]. rewrite Htruthy.
    cbn [negb andb]. by rewrite Htruthy.
  - intros -> Hcore sv -> Hsv. unfold resolveVersion.
    cbn [opt_truthy negb andb]. by rewrite Hcore, Hsv; cbn [andb negb]; rewrite Hsv.
  - intros -> Hcond. unfold resolveVersion. cbn [opt_truthy negb andb].
    by rewrite Hcond.
  - intros options configDir mainConfig main version -> Hready Hversion.
    by destruct (add_ready w addon options _ _ _ _ _ Hready Hversion) as (_ & ? & _).
Qed.

(** C5: the spec is [name@^version] exactly when [isValidVersion] accepts
    the version, that is when semver accepts it or it is made of digits
    only, and [name@version] otherwise; 1.2.3 and 7 are accepted, [next] is
    not, so that the spec for [next] is [name@next]. What semver says of
    1.2.3 and of [next] is taken as given. *)
Theorem C5_install_spec_format w :
  opt_truthy (SemVer_valid w (js "1.2.3")) = true ->
  opt_truthy (SemVer_valid w (js "next")) = false ->
  (forall version,
     isValidVersion (SemVer_valid w) version = true <->
     opt_truthy (SemVer_valid w version) = true \/
     (version <> [] /\ Forall (fun c => (chr "0" <= c <= chr "9")%N) version)) /\
  (forall name version,
     isValidVersion (SemVer_valid w) version = true ->
     addonWithVersion w name version = name ++ js "@^" ++ version) /\
  (forall name version,
     isValidVersion (SemVer_valid w) version = false ->
     addonWithVersion w name version = name ++ js "@" ++ version) /\
  (forall name version,
     addonWithVersion w name version = name ++ js "@^" ++ version <->
     isValidVersion (SemVer_valid w) version = true) /\
  isValidVersion (SemVer_valid w) (js "1.2.3") = true /\
  isValidVersion (SemVer_valid w) (js "7") = true /\
  isValidVersion (SemVer_valid w) (js "next") = false /\
  (forall name, addonWithVersion w name (js "next") = name ++ js "@next").
Proof.
  intros H123 Hnext.
  assert (Hnext' : isValidVersion (SemVer_valid w) (js "next") = false).
  { rewrite isValidVersion_eq, Hnext. reflexivity. }
  split; [|split; [|split; [|split; [|split; [|split; [|split]]]]]].
  - intros version. rewrite isValidVersion_eq, orb_true_iff, andb_true_iff.
    rewrite forallb_forall, Forall_forall. change (chr "0") with 48%N.
    change (chr "9") with 57%N.
    split; (intros [?|[Hne Hd]]; [by left|right]).
    + split; [by destruct version|]. intros c Hc%list_elem_of_In%Hd.
      simpl in Hc. apply andb_true_iff in Hc as [?%N.leb_le ?%N.leb_le]. lia.
    + split; [by destruct version|]. intros c Hc%list_elem_of_In%Hd.
      simpl. apply andb_true_iff. split; apply N.leb_le; lia.
  - intros name version Hv. unfold addonWithVersion. by rewrite Hv.
  - intros name version Hv. unfold addonWithVersion. by rewrite Hv.
  - intros name version. unfold addonWithVersion.
    destruct (isValidVersion _ version); [done|]. split; [|done].
    intros Heq%app_inv_head. apply (f_equal length) in Heq.
    rewrite !length_app in Heq. simpl in Heq. lia.
  - rewrite isValidVersion_eq, H123. reflexivity.
  - rewrite isValidVersion_eq. apply orb_true_iff. right. reflexivity.
  - done.
  - intros name. unfold addonWithVersion. rewrite Hnext'. reflexivity.
Qed.

(** C6 (amended): when the main config is found and loads, its [addons]
    is a list whose entries all have the declared type (a string, or an
    object with a string [name]), one of them equals or ends with the addon
    name, and that name is not empty, [add] makes no install call and no
    config write, logs the duplicate message and returns without
    throwing. *)
Theorem C6_registered_addon_is_skipped w (addon : jsstring) (options : CLIOptions)
    (configDir mainConfig : jsstring) (required : value) (entries : list value) :
  let name := (getVersionSpecifier addon).1 in
  let t := (add w addon options).1 in
  Located w options configDir mainConfig required ->
  getProp required (js "addons") = Ok (VArray entries) ->
  Forall (fun entry => isAddonEntry entry = true) entries ->
  (exists entry n,
     entry ∈ entries /\ entryName entry = Some n /\ endsWith n name = true) ->
  str_truthy name = true ->
  (add w addon options).2 = Ok tt /\
  installs t = [] /\ appends t = [] /\ writes t = [] /\
  logged LError t = [duplicateMessage name mainConfig].
Proof.
  cbv zeta. intros Hloc Hget Hall Hex Hname.
  apply (add_located_duplicate w addon options configDir mainConfig required Hloc).
  by eapply checkInstalled_registered.
Qed.

(** C7: in every execution of [add], each config mutation and each config
    write comes after an install call; and when an install call of the
    execution throws, nothing is appended to the config and nothing is
    written: [add] ends with what the install threw. *)
Theorem C7_install_before_config_mutation w (addon : jsstring) (options : CLIOptions) :
  InstallPrecedes (add w addon options).1 /\
  forall dev specs e,
    (dev, specs) ∈ installs (add w addon options).1 ->
    addDependencies (getPackageManager w (opt_packageManager options)) dev specs
      = Throws e ->
    appends (add w addon options).1 = [] /\
    writes (add w addon options).1 = [] /\
    (add w addon options).2 = Err (Thrown e).
Proof.
  split; [apply add_install_first|].
  intros dev specs e. apply add_install_failure.
Qed.

(** C9: in an execution that resolves a version, the compatibility warning
    is logged exactly when the addon is a core addon and the resolved
    version differs from the detected Storybook version, and nothing else
    is logged as a warning; with or without it the install call is made,
    and when each step succeeds the next one runs: the append, the write,
    the post-install hook. *)
Theorem C9_mismatch_warning_never_blocks w (addon : jsstring) (options : CLIOptions)
    (configDir mainConfig : jsstring) (main : ConfigFile)
    (storybookVersion : option jsstring) (version : jsstring) :
  let name := (getVersionSpecifier addon).1 in
  let packageManager := getPackageManager w (opt_packageManager options) in
  let spec := addonWithVersion w name version in
  let t := (add w addon options).1 in
  Ready w addon options configDir mainConfig main storybookVersion ->
  (resolveVersion w packageManager name (getVersionSpecifier addon).2
     storybookVersion).2 = Ok version ->
  (logged LWarn t = [mismatchWarning name] <->
     isCoreAddon w name = true /\ Some version <> storybookVersion) /\
  (logged LWarn t = [] <->
     ~ (isCoreAddon w name = true /\ Some version <> storybookVersion)) /\
  installs t = [(true, [spec])] /\
  (addDependencies packageManager true [spec] = Returns tt ->
   appends t = [([js "addons"], name)] /\
   forall main',
     appendValueToArray w [js "addons"] name main = Returns main' ->
     writes t = [main'] /\
     (writeConfig w main' = Returns tt ->
      postinstalls t =
        if negb (opt_skipPostinstall options) && isCoreAddon w name
        then [(name, {| po_packageManager := pm_type packageManager;
                        po_configDir := configDir |})]
        else [])).
Proof.
  cbv zeta. intros Hready Hversion.
  destruct (add_ready w addon options _ _ _ _ _ Hready Hversion)
    as (Hwarn & Hinstall & Hrest).
  rewrite Hwarn. split; [|split; [|done]].
  - destruct (isCoreAddon w _); cbn [andb]; [|by split; [|intros []]].
    case_bool_decide; cbn [negb]; split; try done; by intros [].
  - destruct (isCoreAddon w _); cbn [andb]; [|by split; [intros _ []|]].
    case_bool_decide; cbn [negb]; split; try done.
    + by intros _ [].
    + intros []. done.
Qed.

End Claims.

(** ** The claims on concrete projects *)

(** C1 fails as stated: the spec that is installed is
    [@storybook/addon-docs@^7.0.1], not [@storybook/addon-docs@7.0.1]. *)
Lemma C1_counterexample :
  let w := project npm found emptyMain in
  let t := (add w (js "@storybook/addon-docs@7.0.1") noOptions).1 in
  checkInstalled (js "@storybook/addon-docs") emptyMain = Ok false /\
  installs t = [(true, [js "@storybook/addon-docs@^7.0.1"])] /\
  installs t <> [(true, [js "@storybook/addon-docs@7.0.1"])].
Proof. vm_compute. repeat split; discriminate. Qed.

Lemma C1_witness :
  let w := project npm found emptyMain in
  let t := (add w (js "@storybook/addon-docs@7.0.1") noOptions).1 in
  installs t = [(true, [js "@storybook/addon-docs@^7.0.1"])] /\
  appends t = [([js "addons"], js "@storybook/addon-docs")] /\
  writes t = [[([js "addons"], js "@storybook/addon-docs")]] /\
  postinstalls t =
    [(js "@storybook/addon-docs",
      {| po_packageManager := js "npm"; po_configDir := js ".storybook" |})].
Proof.
  apply (C1_add_docs_installs_caret_spec (project npm found emptyMain) noOptions
           (js ".storybook") (js ".storybook/main.js") []
           [([js "addons"], js "@storybook/addon-docs")] (Some (js "8.0.0"))).
  - apply project_ready; vm_compute; reflexivity.
  - vm_compute; reflexivity.
  - vm_compute; reflexivity.
  - reflexivity.
  - reflexivity.
  - reflexivity.
Defined.


Lemma C5_witness :
  let w := project npm found emptyMain in
  isValidVersion (SemVer_valid w) (js "1.2.3") = true /\
  isValidVersion (SemVer_valid w) (js "7") = true /\
  isValidVersion (SemVer_valid w) (js "next") = false /\
  addonWithVersion w (js "@storybook/addon-docs") (js "next")
    = js "@storybook/addon-docs@next".
Proof.
  destruct (C5_install_spec_format (project npm found emptyMain))
    as (_ & _ & _ & _ & H1 & H2 & H3 & H4).
  - vm_compute; reflexivity.
  - vm_compute; reflexivity.
  - cbv zeta. rewrite H4. repeat split; assumption.
Defined.

(** C6 fails as stated: a [null] entry before the matching one makes
    [add] throw; and for the empty specifier, an [addons] list that holds
    the empty name does not stop the install. *)
Lemma C6_counterexample :
  let name := js "@storybook/addon-docs" in
  entryName (VString name) = Some name /\ endsWith name name = true /\
  (add (project npm found (VObject [(js "addons", VArray [VNull; VString name])]))
       name noOptions).2 = Err TypeError /\
  (getVersionSpecifier (js "")).1 = js "" /\
  entryName (VString (js "")) = Some (js "") /\ endsWith (js "") (js "") = true /\
  installs (add (project npm found (VObject [(js "addons", VArray [VString (js "")])]))
                (js "") noOptions).1 = [(true, [js "@^2.1.0"])].
Proof. vm_compute. repeat split; reflexivity. Qed.

Lemma C6_witness :
  let name := js "@storybook/addon-docs" in
  let main :=
    VObject [(js "addons",
              VArray [VString (js "@storybook/addon-links");
                      VObject [(js "name",
                                VString (js "/app/node_modules/@storybook/addon-docs"))]])] in
  let run := add (project npm found main) (js "@storybook/addon-docs@7.0.1") noOptions in
  run.2 = Ok tt /\ installs run.1 = [] /\ appends run.1 = [] /\ writes run.1 = [] /\
  logged LError run.1 = [duplicateMessage name (js ".storybook/main.js")].
Proof.
  eapply (C6_registered_addon_is_skipped _ (js "@storybook/addon-docs@7.0.1") noOptions
            (js ".storybook") (js ".storybook/main.js")).
  - exists (VObject [(js "name", VString (js "app"))]), found.
    repeat split; reflexivity.
  - reflexivity.
  - repeat constructor.
  - exists (VObject [(js "name",
                      VString (js "/app/node_modules/@storybook/addon-docs"))]),
           (js "/app/node_modules/@storybook/addon-docs").
    split; [|split; vm_compute; reflexivity].
    apply elem_of_cons; right; apply elem_of_cons; by left.
  - reflexivity.
Defined.

Lemma C9_witness :
  let w := project npm found emptyMain in
  let t := (add w (js "@storybook/addon-docs@7.0.1") noOptions).1 in
  isCoreAddon w (js "@storybook/addon-docs") = true /\
  logged LWarn t = [mismatchWarning (js "@storybook/addon-docs")] /\
  installs t = [(true, [js "@storybook/addon-docs@^7.0.1"])].
Proof.
  destruct (C9_mismatch_warning_never_blocks (project npm found emptyMain)
              (js "@storybook/addon-docs@7.0.1") noOptions
              (js ".storybook") (js ".storybook/main.js") [] (Some (js "8.0.0"))
              (js "7.0.1"))
    as (Hwarn & _ & Hinstall & _).
  - apply project_ready; vm_compute; reflexivity.
  - vm_compute; reflexivity.
  - cbv zeta. split; [vm_compute; reflexivity|]. split.
    + apply Hwarn. split; [vm_compute; reflexivity|discriminate].
    + exact Hinstall.
Defined.

(** The examples of the specification. *)
Example core_addon_without_version :
  installs (add (project npm found emptyMain) (js "@storybook/addon-docs") noOptions).1
    = [(true, [js "@storybook/addon-docs@^8.0.0"])].
Proof. vm_compute. reflexivity. Qed.

Example other_addon_without_version :
  installs (add (project npm found emptyMain) (js "storybook-dark-mode") noOptions).1
    = [(true, [js "storybook-dark-mode@^2.1.0"])].
Proof. vm_compute. reflexivity. Qed.

Example version_tag :
  installs (add (project npm found emptyMain) (js "@storybook/addon-docs@next") noOptions).1
    = [(true, [js "@storybook/addon-docs@next"])].
Proof. vm_compute. reflexivity. Qed.

(** A failed install leaves the config alone. *)
Example failed_install :
  let run := add (project offline found emptyMain) (js "@storybook/addon-docs") noOptions in
  installs run.1 = [(true, [js "@storybook/addon-docs@^8.0.0"])] /\
  appends run.1 = [] /\ writes run.1 = [] /\
  run.2 = Err (Thrown (VString (js "ENOTFOUND"))).
Proof. vm_compute. repeat split; reflexivity. Qed.

(** ** The Vue 3 Vite preset *)

Module VuePresetProofs.

Import VuePreset.












(** A plugin list that has the Vue plugin, even inside a nested list, gets
    the component-metadata plugin only. *)
Example vue_plugin_present :
  newPlugins vuePlugin metaPlugin
    [(js "plugins", VArray [reactPlugin; VArray [vuePlugin]])] = [metaPlugin].
Proof. reflexivity. Qed.

End VuePresetProofs.

(** * Further properties of the code *)

(** ** More on [getVersionSpecifier] *)

Lemma untilAt_run run rest :
  forallb (fun c => negb (c =? chr "@")%N) run = true ->
  (rest = [] \/ exists v, rest = chr "@" :: v) ->
  untilAt (run ++ rest) = (run, rest).
Proof.
  intros Hrun Hrest. induction run as [|x run IH]; simpl in *.
  - destruct Hrest as [->|[v ->]]; [done|]. simpl. by rewrite ?N.eqb_refl.
  - apply andb_true_iff in Hrun as [Hx Hrun]. apply negb_true_iff in Hx.
    rewrite Hx. by rewrite IH.
Qed.

Lemma untilAt_result s :
  forallb (fun c => negb (c =? chr "@")%N) (untilAt s).1 = true.
Proof.
  destruct (untilAt_spec s) as (_ & Hall & _).
  apply forallb_forall. rewrite Forall_forall in Hall.
  intros x Hx%list_elem_of_In. by apply Hall.
Qed.

(** A package name, an [@] and anything: the split is there exactly when
    what follows can be a version. *)
Lemma specifier_of_name_at name version :
  isPackageName name = true ->
  getVersionSpecifier (name ++ chr "@" :: version) =
    if isVersionText version then (name, Some version)
    else (name ++ chr "@" :: version, None).
Proof.
  unfold isPackageName, isVersionText. intros [Hne Hbody]%andb_true_iff.
  rewrite getVersionSpecifier_split. unfold splitSpecifier.
  destruct name as [|x rest]; [done|]. cbn [app].
  destruct (N.eqb_spec x (chr "@")) as [->|Hx].
  - rewrite (untilAt_run rest (chr "@" :: version)) by eauto.
    destruct rest as [|y rest']; [done|].
    by destruct (str_truthy version && _).
  - change (x :: rest ++ chr "@" :: version) with ((x :: rest) ++ chr "@" :: version).
    rewrite (untilAt_run (x :: rest) (chr "@" :: version)) by eauto.
    by destruct (str_truthy version && _).
Qed.

Lemma specifier_of_name name :
  isPackageName name = true -> getVersionSpecifier name = (name, None).
Proof.
  unfold isPackageName. intros [Hne Hbody]%andb_true_iff.
  rewrite getVersionSpecifier_split. unfold splitSpecifier.
  destruct name as [|x rest]; [done|].
  destruct (N.eqb_spec x (chr "@")) as [->|Hx].
  - rewrite <- (app_nil_r rest) at 1. rewrite (untilAt_run rest []) by eauto.
    by destruct rest.
  - rewrite <- (app_nil_r (x :: rest)) at 1.
    rewrite (untilAt_run (x :: rest) []) by eauto. done.
Qed.

Lemma specifier_split_shape addon name version :
  getVersionSpecifier addon = (name, Some version) ->
  addon = name ++ chr "@" :: version /\
  isPackageName name = true /\ isVersionText version = true.
Proof.
  rewrite getVersionSpecifier_split. unfold splitSpecifier, isPackageName, isVersionText.
  assert (Hsb : addon =
    (match addon with
     | [] => ([], addon)
     | x :: s' => if (x =? chr "@")%N then ([x], s') else ([], addon)
     end).1 ++
    (match addon with
     | [] => ([], addon)
     | x :: s' => if (x =? chr "@")%N then ([x], s') else ([], addon)
     end).2 /\
    ((match addon with
     | [] => ([], addon)
     | x :: s' => if (x =? chr "@")%N then ([x], s') else ([], addon)
     end).1 = [] \/
     (match addon with
     | [] => ([], addon)
     | x :: s' => if (x =? chr "@")%N then ([x], s') else ([], addon)
     end).1 = [chr "@"])).
  { destruct addon as [|x s']; [by split; [|left]|].
    destruct (N.eqb_spec x (chr "@")) as [->|]; simpl; split; eauto. }
  destruct (match addon with [] => _ | _ :: _ => _ end) as [scope body].
  cbn [fst snd] in Hsb. destruct Hsb as [Hsb Hscope].
  destruct (untilAt_spec body) as (Hb & _ & Hrest).
  pose proof (untilAt_result body) as Hrun.
  destruct (untilAt body) as [[|n run] rest]; cbn [fst snd] in *; [done|].
  destruct rest as [|a v]; [done|].
  destruct Hrest as [|[v' [= -> ->]]]; [done|].
  destruct (str_truthy v' && _) eqn:Hv; [|done].
  intros [= <- <-]. split; [by rewrite Hsb, Hb, <- app_assoc|]. split; [|done].
  destruct Hscope as [->| ->]; cbn [app].
  - apply andb_true_iff in Hrun as [Hn Hrun']. apply negb_true_iff in Hn.
    rewrite Hn. simpl. rewrite Hn. simpl. exact Hrun'.
  - by rewrite N.eqb_refl.
Qed.

Lemma specifier_no_version addon :
  (getVersionSpecifier addon).2 = None -> (getVersionSpecifier addon).1 = addon.
Proof.
  rewrite getVersionSpecifier_split. unfold splitSpecifier.
  assert (Hsb : addon =
    (match addon with
     | [] => ([], addon)
     | x :: s' => if (x =? chr "@")%N then ([x], s') else ([], addon)
     end).1 ++
    (match addon with
     | [] => ([], addon)
     | x :: s' => if (x =? chr "@")%N then ([x], s') else ([], addon)
     end).2).
  { destruct addon as [|x s']; [done|]. by destruct (x =? chr "@")%N. }
  destruct (match addon with [] => _ | _ :: _ => _ end) as [scope body].
  cbn [fst snd] in Hsb.
  destruct (untilAt_spec body) as (Hb & _ & _).
  destruct (untilAt body) as [[|n run] [|a v]]; cbn [fst snd] in *; try done.
  - intros _. by rewrite Hsb, Hb, app_nil_r.
  - by destruct (str_truthy v && _).
Qed.

(** X1: [getVersionSpecifier] answers a name and a version exactly when
    the input is that name, an [@] and that version, the name being an
    optional leading [@] followed by at least one character other than [@]
    and the version being non-empty and free of line terminators. *)
Theorem X1_specifier_split_characterised (addon name version : jsstring) :
  getVersionSpecifier addon = (name, Some version) <->
  addon = name ++ chr "@" :: version /\
  isPackageName name = true /\ isVersionText version = true.
Proof.
  split; [apply specifier_split_shape|].
  intros (-> & Hname & Hversion). by rewrite specifier_of_name_at, Hversion.
Qed.

(** X2: the name [getVersionSpecifier] answers is a fixed point: given
    that name alone, it answers the same name and no version. *)
Theorem X2_specifier_name_is_a_fixed_point (addon : jsstring) :
  getVersionSpecifier (getVersionSpecifier addon).1
    = ((getVersionSpecifier addon).1, None).
Proof.
  destruct (getVersionSpecifier addon) as [name [version|]] eqn:E; cbn [fst].
  - apply specifier_split_shape in E as (_ & Hname & _). by apply specifier_of_name.
  - pose proof (specifier_no_version addon) as H. rewrite E in H.
    cbn [fst snd] in H. rewrite (H eq_refl) in E |- *. done.
Qed.

(** X3: a package name followed by an [@] and by nothing, or by a text that
    holds a line terminator, is not split: the name answered is the whole
    input, [@] included, and there is no version. *)
Theorem X3_specifier_unsplit_edge (name version : jsstring) :
  isPackageName name = true ->
  isVersionText version = false ->
  getVersionSpecifier (name ++ chr "@" :: version)
    = (name ++ chr "@" :: version, None).
Proof. intros Hname Hversion. by rewrite specifier_of_name_at, Hversion. Qed.

Lemma X3_witness :
  getVersionSpecifier (js "@storybook/addon-docs@")
    = (js "@storybook/addon-docs@", None) /\
  getVersionSpecifier (js "addon-docs@7.0.1" ++ [10%N])
    = (js "addon-docs@7.0.1" ++ [10%N], None).
Proof.
  split.
  - apply (X3_specifier_unsplit_edge (js "@storybook/addon-docs") []); reflexivity.
  - apply (X3_specifier_unsplit_edge (js "addon-docs") (js "7.0.1" ++ [10%N]));
      reflexivity.
Defined.

(** ** More on [checkInstalled] *)

Lemma entryMatches_true_truthy name entry :
  entryMatches name entry = Ok true -> str_truthy name = true -> truthy entry = true.
Proof.
  unfold entryMatches, getProp. intros H Hname.
  destruct entry as [| | | |s| |props]; simpl in *; try done.
  injection H as H. by eapply endsWith_truthy.
Qed.

Lemma endsWith_trans s t u :
  endsWith s t = true -> u `suffix_of` t -> endsWith s u = true.
Proof.
  rewrite !endsWith_suffix. intros Ht Hu. by etrans.
Qed.

Lemma entryMatches_suffix name name' entry b :
  name' `suffix_of` name ->
  entryMatches name entry = Ok b ->
  exists b', entryMatches name' entry = Ok b' /\ (b = true -> b' = true).
Proof.
  intros Hsuffix. unfold entryMatches.
  destruct (match entry with VString s => _ | _ => _ end) as [[| | | |s| |]|]; try done.
  - intros [= <-]. by exists false.
  - intros [= <-]. by exists false.
  - intros [= <-]. eexists. split; [done|]. intros H. by eapply endsWith_trans.
Qed.

Lemma find_suffix name name' entries x :
  name' `suffix_of` name -> str_truthy name' = true ->
  find (entryMatches name) entries = Ok x -> truthy x = true ->
  exists y, find (entryMatches name') entries = Ok y /\ truthy y = true.
Proof.
  intros Hsuffix Hname'. induction entries as [|e rest IH]; simpl; [by intros [= <-]|].
  destruct (entryMatches name e) as [b|] eqn:E; [|done].
  destruct (entryMatches_suffix _ _ _ _ Hsuffix E) as (b' & E' & Hb).
  rewrite E'. destruct b' eqn:Eb'.
  - intros _ _. exists e. split; [done|]. by eapply entryMatches_true_truthy.
  - destruct b; [by specialize (Hb eq_refl)|]. apply IH.
Qed.

(** X4: when [checkInstalled] finds an addon name registered, it finds
    every non-empty suffix of that name registered too (a shorter name
    matches more entries, and never throws where the longer one did not). *)
Theorem X4_checkInstalled_suffix_monotone (name name' : jsstring) (main : value) :
  name' `suffix_of` name ->
  str_truthy name' = true ->
  checkInstalled name main = Ok true ->
  checkInstalled name' main = Ok true.
Proof.
  intros Hsuffix Hname'. unfold checkInstalled.
  destruct (getProp main (js "addons")) as [[| | | | |entries|]|]; try done.
  destruct (find (entryMatches name) entries) as [x|] eqn:Hfind; [|done].
  intros [= Hx].
  destruct (find_suffix _ _ _ _ Hsuffix Hname' Hfind Hx) as (y & -> & Hy).
  by rewrite Hy.
Qed.

Lemma X4_witness :
  let main := VObject [(js "addons", VArray [VString (js "@storybook/addon-docs")])] in
  checkInstalled (js "@storybook/addon-docs") main = Ok true /\
  checkInstalled (js "addon-docs") main = Ok true /\
  checkInstalled (js "docs") main = Ok true.
Proof.
  cbv zeta. split; [reflexivity|]. split.
  - apply (X4_checkInstalled_suffix_monotone (js "@storybook/addon-docs")).
    + by exists (js "@storybook/").
    + reflexivity.
    + reflexivity.
  - apply (X4_checkInstalled_suffix_monotone (js "@storybook/addon-docs")).
    + by exists (js "@storybook/addon-").
    + reflexivity.
    + reflexivity.
Defined.

Lemma find_more (f : value -> result bool) entries more x :
  find f entries = Ok x -> truthy x = true -> find f (entries ++ more) = Ok x.
Proof.
  induction entries as [|e rest IH]; simpl; [by intros [= <-]|].
  by destruct (f e) as [[|]|].
Qed.

(** X5: [checkInstalled] looks no further than the first match: once it
    answers [true] for a list of entries, it answers [true] for that list
    followed by any entries, malformed ones included. *)
Theorem X5_checkInstalled_stops_at_first_match (name : jsstring) (main main' : value)
    (entries more : list value) :
  getProp main (js "addons") = Ok (VArray entries) ->
  getProp main' (js "addons") = Ok (VArray (entries ++ more)) ->
  checkInstalled name main = Ok true ->
  checkInstalled name main' = Ok true.
Proof.
  unfold checkInstalled. intros -> ->.
  destruct (find (entryMatches name) entries) as [x|] eqn:Hfind; [|done].
  intros [= Hx]. by rewrite (find_more _ _ more _ Hfind Hx), Hx.
Qed.

Lemma X5_witness :
  checkInstalled (js "@storybook/addon-docs")
    (VObject [(js "addons",
               VArray [VString (js "@storybook/addon-docs"); VNull; VNumber 3])])
    = Ok true.
Proof.
  apply (X5_checkInstalled_stops_at_first_match (js "@storybook/addon-docs")
           (VObject [(js "addons", VArray [VString (js "@storybook/addon-docs")])])
           _ [VString (js "@storybook/addon-docs")] [VNull; VNumber 3]);
    reflexivity.
Defined.

Lemma find_typed name entries :
  Forall (fun entry => isAddonEntry entry = true) entries ->
  (exists x n, find (entryMatches name) entries = Ok x /\ x ∈ entries /\
               entryName x = Some n /\ endsWith n name = true) \/
  (find (entryMatches name) entries = Ok VUndefined /\
   forall entry n, entry ∈ entries -> entryName entry = Some n ->
                   endsWith n name = false).
Proof.
  induction 1 as [|e rest He _ IH]; simpl.
  - right. split; [done|]. intros entry n Hin. by apply elem_of_nil in Hin.
  - destruct (entryMatches_typed name e He) as (m & Hm & ->).
    destruct (endsWith m name) eqn:E.
    + left. exists e, m. split; [done|]. split; [by left|done].
    + destruct IH as [(x & n & -> & Hin & Hn & Hends)|[-> Hnone]].
      * left. exists x, n. split; [done|]. split; [by right|done].
      * right. split; [done|]. intros entry n [->|Hin]%elem_of_cons Hn.
        -- congruence.
        -- by eapply Hnone.
Qed.

(** X6: on a main config whose [addons] entries all have the declared
    type, and for a non-empty addon name, [checkInstalled] never throws and
    answers [true] exactly when the name of some entry ends with the addon
    name. *)
Theorem X6_checkInstalled_decides_registration (name : jsstring) (main : value)
    (entries : list value) :
  getProp main (js "addons") = Ok (VArray entries) ->
  Forall (fun entry => isAddonEntry entry = true) entries ->
  str_truthy name = true ->
  exists installed,
    checkInstalled name main = Ok installed /\
    (installed = true <->
     exists entry n, entry ∈ entries /\ entryName entry = Some n /\ name `suffix_of` n).
Proof.
  intros Hget Hall Hname. unfold checkInstalled. rewrite Hget.
  destruct (find_typed name entries Hall)
    as [(x & n & -> & Hin & Hn & Hends)|[-> Hnone]].
  - exists true. split.
    + f_equal. destruct x as [| | | |s| |props]; simpl in *; try done.
      simplify_eq. by eapply endsWith_truthy.
    + split; [|done]. intros _. exists x, n. by rewrite <- endsWith_suffix.
  - exists false. split; [done|]. split; [done|].
    intros (entry & n & Hin & Hn & Hsuffix%endsWith_suffix).
    by rewrite (Hnone _ _ Hin Hn) in Hsuffix.
Qed.

Lemma X6_witness :
  exists installed,
    checkInstalled (js "@storybook/addon-docs")
      (VObject [(js "addons",
                 VArray [VString (js "@storybook/addon-links");
                         VObject [(js "name", VString (js "@storybook/addon-a11y"))]])])
      = Ok installed /\
    installed = false.
Proof.
  destruct (X6_checkInstalled_decides_registration (js "@storybook/addon-docs")
              (VObject [(js "addons",
                 VArray [VString (js "@storybook/addon-links");
                         VObject [(js "name", VString (js "@storybook/addon-a11y"))]])])
              [VString (js "@storybook/addon-links");
               VObject [(js "name", VString (js "@storybook/addon-a11y"))]])
    as (installed & Hcheck & _).
  - reflexivity.
  - repeat constructor.
  - reflexivity.
  - exists installed. split; [exact Hcheck|].
    vm_compute in Hcheck. congruence.
Defined.


(** ** More on [add] *)

Section MoreOnAdd.

Context {ConfigFile : Type}.
Implicit Types (w : World ConfigFile).

(** X7: when the project lookup finds no main config ([mainConfig] is
    [undefined] or the empty string), [add] logs one error and returns
    normally, having called nothing but the manifest reader and the project
    lookup: no module is loaded, nothing is installed or written. *)
Theorem X7_main_config_not_found w (addon : jsstring) (options : CLIOptions)
    (packageJson : value) (info : StorybookInfo) :
  retrievePackageJson (getPackageManager w (opt_packageManager options))
    = Returns packageJson ->
  getStorybookInfo w packageJson (opt_configDir options) = Returns info ->
  opt_truthy (info_mainConfig info) = false ->
  add w addon options =
    ([ERetrievePackageJson;
      EGetStorybookInfo packageJson (opt_configDir options);
      ELogger LError (js "Unable to find Storybook main.js config")],
     Ok tt).
Proof.
  intros Hpj Hinfo Hmain. unfold_add.
  destruct (getVersionSpecifier addon) as [name inputVersion].
  rewrite Hpj; cbn [bind call fst snd app].
  rewrite Hinfo; cbn [bind call fst snd app].
  destruct (resolveConfigDir_defined (opt_configDir options) (info_configDir info))
    as (configDir & -> & _).
  destruct (info_mainConfig info) as [mainConfig|]; [|done].
  cbn [opt_truthy] in Hmain. by rewrite Hmain.
Qed.

(** X8: no execution of [add] calls a collaborator twice: at most one
    module load, one config read, one registry query, one install, one
    append, one write and one post-install call. *)
Theorem X8_every_collaborator_called_at_most_once w (addon : jsstring)
    (options : CLIOptions) :
  let t := (add w addon options).1 in
  length (requires t) <= 1 /\ length (reads t) <= 1 /\ length (queries t) <= 1 /\
  length (installs t) <= 1 /\ length (appends t) <= 1 /\ length (writes t) <= 1 /\
  length (postinstalls t) <= 1.
Proof.
  cbv zeta. unfold_add.
  repeat step; repeat split; simpl; lia.
Qed.

(** X9: when [add] returns normally, exactly one of three things has
    happened: the main config was not found (one error logged, no module
    loaded, nothing installed or written); the addon was already registered
    (the duplicate message logged, no config read, nothing installed or
    written); or the package was installed once, the bare name appended to
    [addons] and the config written once, with no error logged. *)
Theorem X9_normal_return_outcomes w (addon : jsstring) (options : CLIOptions) :
  let name := (getVersionSpecifier addon).1 in
  let t := (add w addon options).1 in
  (add w addon options).2 = Ok tt ->
  (logged LError t = [js "Unable to find Storybook main.js config"] /\
   requires t = [] /\ installs t = [] /\ writes t = []) \/
  (exists mainConfig,
     logged LError t = [duplicateMessage name mainConfig] /\
     reads t = [] /\ installs t = [] /\ writes t = []) \/
  (logged LError t = [] /\ length (installs t) = 1 /\
   appends t = [([js "addons"], name)] /\ length (writes t) = 1).
Proof.
  cbv zeta. unfold_add.
  repeat step; intros Hok; try discriminate.
  all: first [ by left
             | right; left; eexists; by repeat split
             | right; right; by repeat split ].
Qed.


(** X10: whatever [add] writes with [writeConfig] is the config it read
    with [readConfig] with the bare addon name appended to [addons], and it
    is written only after the single install call has returned. *)
Theorem X10_written_config_is_read_config_plus_name w (addon : jsstring)
    (options : CLIOptions) (written : ConfigFile) :
  let name := (getVersionSpecifier addon).1 in
  let packageManager := getPackageManager w (opt_packageManager options) in
  let t := (add w addon options).1 in
  written ∈ writes t ->
  exists mainConfig main spec,
    reads t = [mainConfig] /\ readConfig w mainConfig = Returns main /\
    installs t = [(true, [spec])] /\
    addDependencies packageManager true [spec] = Returns tt /\
    appends t = [([js "addons"], name)] /\
    appendValueToArray w [js "addons"] name main = Returns written.
Proof.
  cbv zeta. unfold_add.
  repeat step; cbn [writes omap]; intros Hin.
  all: try (by apply elem_of_nil in Hin).
  all: apply list_elem_of_singleton in Hin; subst.
  all: do 3 eexists; repeat split; try reflexivity; try eassumption.
  all: by destruct_all unit.
Qed.

(** X11: the post-install hook is called only for the addon itself, only
    when [skipPostinstall] is not set and the addon is a core addon, only
    after the config write has returned, and with the type of the package
    manager and the resolved config directory. *)
Theorem X11_postinstall_only_for_core_after_write w (addon : jsstring)
    (options : CLIOptions) (hooked : jsstring) (o : PostinstallOptions) :
  let name := (getVersionSpecifier addon).1 in
  let packageManager := getPackageManager w (opt_packageManager options) in
  let t := (add w addon options).1 in
  (hooked, o) ∈ postinstalls t ->
  hooked = name /\ opt_skipPostinstall options = false /\ isCoreAddon w name = true /\
  po_packageManager o = pm_type packageManager /\
  (exists packageJson info,
     getStorybookInfo w packageJson (opt_configDir options) = Returns info /\
     resolveConfigDir (opt_configDir options) (info_configDir info)
       = Some (po_configDir o)) /\
  (exists written, writes t = [written] /\ writeConfig w written = Returns tt).
Proof.
  cbv zeta. unfold_add.
  repeat step; cbn [postinstalls omap]; intros Hin.
  all: try (by apply elem_of_nil in Hin).
  all: apply list_elem_of_singleton in Hin; simplify_eq; cbn [po_packageManager po_configDir].
  all: match goal with
       | H : negb (opt_skipPostinstall _) && isCoreAddon _ _ = true |- _ =>
           apply andb_true_iff in H as [?%negb_true_iff ?]
       end.
  all: repeat split; try done; eauto.
  all: eexists; split; [reflexivity|]; by destruct_all unit.
Qed.

(** X12: setting [skipPostinstall] changes nothing but the hook: the
    events are those of the run without the flag minus the post-install
    call, and the outcome is the same, except that a run whose hook was
    called (and may have thrown) now returns normally. *)
Theorem X12_skipPostinstall_changes_only_the_hook w (addon : jsstring)
    (options : CLIOptions) :
  (add w addon (skippingPostinstall options)).1
    = withoutPostinstall (add w addon options).1 /\
  (postinstalls (add w addon options).1 = [] ->
   (add w addon (skippingPostinstall options)).2 = (add w addon options).2) /\
  (postinstalls (add w addon options).1 <> [] ->
   (add w addon (skippingPostinstall options)).2 = Ok tt).
Proof.
  unfold_add. cbn [skippingPostinstall opt_packageManager opt_configDir opt_skipPostinstall
                   negb andb].
  repeat step; cbn [withoutPostinstall List.filter isPostinstall negb postinstalls omap].
  all: repeat split; try done.
  all: by destruct_all unit.
Qed.

End MoreOnAdd.


Section MoreOnAdd2.

Context {ConfigFile : Type}.
Implicit Types (w : World ConfigFile).

(** Under [Ready], [add] is the steps it has taken followed by the install
    phase: what the rest of the run does and how it ends. *)
Lemma add_ready_end w addon options configDir mainConfig main sbv version :
  Ready w addon options configDir mainConfig main sbv ->
  (resolveVersion w (getPackageManager w (opt_packageManager options))
     (getVersionSpecifier addon).1 (getVersionSpecifier addon).2 sbv).2 = Ok version ->
  queries (add w addon options).1 =
    queries (resolveVersion w (getPackageManager w (opt_packageManager options))
               (getVersionSpecifier addon).1 (getVersionSpecifier addon).2 sbv).1 /\
  reads (add w addon options).1 = [mainConfig] /\
  logged LError (add w addon options).1 = [] /\
  (forall e,
     addDependencies (getPackageManager w (opt_packageManager options)) true
       [addonWithVersion w (getVersionSpecifier addon).1 version] = Throws e ->
     (add w addon options).2 = Err (Thrown e)) /\
  (addDependencies (getPackageManager w (opt_packageManager options)) true
     [addonWithVersion w (getVersionSpecifier addon).1 version] = Returns tt ->
   (forall e,
      appendValueToArray w [js "addons"] (getVersionSpecifier addon).1 main = Throws e ->
      writes (add w addon options).1 = [] /\
      postinstalls (add w addon options).1 = [] /\
      (add w addon options).2 = Err (Thrown e)) /\
   (forall main' e,
      appendValueToArray w [js "addons"] (getVersionSpecifier addon).1 main
        = Returns main' ->
      writeConfig w main' = Throws e ->
      postinstalls (add w addon options).1 = [] /\
      (add w addon options).2 = Err (Thrown e))).
Proof.
  intros (required & (packageJson & info & Hpj & Hinfo & Hdir & Hmain & Htruthy
          & Hreq) & Hcheck & Hread & Hsbv) Hversion.
  unfold_add.
  destruct (getVersionSpecifier addon) as [name inputVersion]; cbn [fst snd] in *.
  rewrite Hpj; cbn [bind call fst snd app].
  rewrite Hinfo; cbn [bind call fst snd app].
  rewrite Hdir, Hmain, Htruthy; cbn [negb].
  destruct (serverRequire w _) as [m|]; cbn [bind call ret lift fst snd app] in *;
    [|done].
  injection Hreq as ->. rewrite Hcheck, Hread, Hsbv.
  cbn [bind call ret lift logger fst snd app].
  repeat step.
  all: repeat split; intros; simplify_eq; try congruence; reflexivity.
Qed.

(** X13: when the install succeeds and the config write throws, the
    package stays installed and unregistered: the install call has been
    made, the write attempted, the hook not called, and [add] ends with what
    the write threw (there is no rollback). *)
Theorem X13_failed_write_leaves_package_installed w (addon : jsstring)
    (options : CLIOptions) (configDir mainConfig : jsstring) (main main' : ConfigFile)
    (storybookVersion : option jsstring) (version : jsstring) (e : value) :
  let name := (getVersionSpecifier addon).1 in
  let packageManager := getPackageManager w (opt_packageManager options) in
  let spec := addonWithVersion w name version in
  let t := (add w addon options).1 in
  Ready w addon options configDir mainConfig main storybookVersion ->
  (resolveVersion w packageManager name (getVersionSpecifier addon).2
     storybookVersion).2 = Ok version ->
  addDependencies packageManager true [spec] = Returns tt ->
  appendValueToArray w [js "addons"] name main = Returns main' ->
  writeConfig w main' = Throws e ->
  installs t = [(true, [spec])] /\ writes t = [main'] /\ postinstalls t = [] /\
  (add w addon options).2 = Err (Thrown e).
Proof.
  cbv zeta. intros Hready Hversion Hinstall Happend Hwrite.
  destruct (add_ready w addon options _ _ _ _ _ Hready Hversion)
    as (_ & Hi & Hrest).
  destruct (Hrest Hinstall) as (_ & Hw). destruct (Hw main' Happend) as (Hw' & _).
  destruct (add_ready_end w addon options _ _ _ _ _ Hready Hversion)
    as (_ & _ & _ & _ & Hend).
  destruct (Hend Hinstall) as (_ & Hwr). destruct (Hwr main' e Happend Hwrite).
  done.
Qed.

(** X14: for a core addon given without a version, when the Storybook
    version is detected, [add] installs that version, asks the registry
    nothing and logs no compatibility warning. *)
Theorem X14_core_addon_follows_storybook_version w (addon : jsstring)
    (options : CLIOptions) (configDir mainConfig : jsstring) (main : ConfigFile)
    (storybookVersion : jsstring) :
  let name := (getVersionSpecifier addon).1 in
  let t := (add w addon options).1 in
  Ready w addon options configDir mainConfig main (Some storybookVersion) ->
  (getVersionSpecifier addon).2 = None ->
  isCoreAddon w name = true ->
  str_truthy storybookVersion = true ->
  queries t = [] /\ logged LWarn t = [] /\
  installs t = [(true, [addonWithVersion w name storybookVersion])].
Proof.
  cbv zeta. intros Hready Hnone Hcore Hsbv.
  assert (Hrv : resolveVersion w (getPackageManager w (opt_packageManager options))
                  (getVersionSpecifier addon).1 (getVersionSpecifier addon).2
                  (Some storybookVersion) = ([], Ok storybookVersion)).
  { rewrite Hnone. unfold resolveVersion. cbn [opt_truthy negb andb].
    by rewrite Hcore, Hsbv; cbn [andb negb]; rewrite Hsbv. }
  destruct (add_ready w addon options _ _ _ _ storybookVersion Hready)
    as (Hwarn & Hi & _); [by rewrite Hrv|].
  destruct (add_ready_end w addon options _ _ _ _ storybookVersion Hready)
    as (Hq & _); [by rewrite Hrv|].
  rewrite Hq, Hrv, Hwarn, Hi, Hcore. cbn [fst]. split; [done|]. split; [|done].
  by rewrite bool_decide_eq_true_2.
Qed.

(** X15: every install call of [add] asks for a dev dependency and for
    exactly one spec, which starts with the addon name and an [@]. *)
Theorem X15_install_is_one_dev_dependency_named_after_the_addon w (addon : jsstring)
    (options : CLIOptions) (dev : bool) (specs : list jsstring) :
  let name := (getVersionSpecifier addon).1 in
  (dev, specs) ∈ installs (add w addon options).1 ->
  dev = true /\
  exists version,
    specs = [addonWithVersion w name version] /\
    (name ++ js "@") `prefix_of` addonWithVersion w name version.
Proof.
  cbv zeta. unfold_add.
  repeat step; cbn [installs omap]; intros Hin.
  all: try (by apply elem_of_nil in Hin).
  all: apply list_elem_of_singleton in Hin; simplify_eq.
  all: split; [done|]; eexists; split; [reflexivity|].
  all: unfold addonWithVersion; destruct (isValidVersion _ _).
  all: try (eexists; rewrite <- app_assoc; reflexivity).
  all: eexists; rewrite <- app_assoc; cbn [app js]; reflexivity.
Qed.

(** X16: when [add] ends with a [TypeError] (a malformed main config),
    it has loaded the main config module and done nothing else: no config
    read, no registry query, no install, no append, no write, no hook, and
    nothing logged at any level. *)
Theorem X16_type_error_aborts_before_any_change w (addon : jsstring)
    (options : CLIOptions) :
  let t := (add w addon options).1 in
  (add w addon options).2 = Err TypeError ->
  length (requires t) = 1 /\ reads t = [] /\ queries t = [] /\ installs t = [] /\
  appends t = [] /\ writes t = [] /\ postinstalls t = [] /\
  logged LError t = [] /\ logged LWarn t = [] /\ logged LLog t = [].
Proof.
  cbv zeta. unfold_add.
  repeat step; intros Herr; try discriminate.
  all: by repeat split.
Qed.

(** X17: a main config module that exports [null] or [undefined] is
    taken as an empty object: [add] reports no duplicate and goes on to read
    the config. *)
Theorem X17_empty_main_module_counts_as_no_addons w (addon : jsstring)
    (options : CLIOptions) (packageJson : value) (info : StorybookInfo)
    (configDir mainConfig : jsstring) (exported : value) :
  let file :=
    pathJoin w (if isAbsolute w configDir then configDir
                else pathJoin w (cwd w) configDir) (js "main") in
  let t := (add w addon options).1 in
  retrievePackageJson (getPackageManager w (opt_packageManager options))
    = Returns packageJson ->
  getStorybookInfo w packageJson (opt_configDir options) = Returns info ->
  resolveConfigDir (opt_configDir options) (info_configDir info) = Some configDir ->
  info_mainConfig info = Some mainConfig ->
  str_truthy mainConfig = true ->
  serverRequire w file = Returns exported ->
  is_nullish exported = true ->
  requires t = [file] /\ reads t = [mainConfig] /\ logged LError t = [].
Proof.
  cbv zeta. intros Hpj Hinfo Hdir Hmain Htruthy Hreq Hnull. unfold_add.
  destruct (getVersionSpecifier addon) as [name inputVersion]; cbn [fst snd] in *.
  rewrite Hpj; cbn [bind call fst snd app].
  rewrite Hinfo; cbn [bind call fst snd app].
  rewrite Hdir, Hmain, Htruthy; cbn [negb].
  rewrite Hreq, Hnull; cbn [bind call ret lift fst snd app].
  change (checkInstalled name (VObject [])) with (@Ok bool false).
  cbn [bind call ret lift logger fst snd app].
  repeat step; by repeat split.
Qed.

End MoreOnAdd2.


Section MoreOnAdd3.

Context {ConfigFile : Type}.
Implicit Types (w : World ConfigFile).

Lemma isCoreAddon_withVersions w table name :
  dom table = dom (versions w) ->
  isCoreAddon (withVersions table w) name = isCoreAddon w name.
Proof.
  intros Hdom. unfold isCoreAddon. cbn [versions withVersions].
  apply bool_decide_ext. by rewrite <- !elem_of_dom, Hdom.
Qed.

(** X18: [add] reads the table of core packages through its keys only:
    two tables with the same keys give the same execution, whatever
    versions they hold. *)
Theorem X18_only_the_keys_of_versions_matter w (table : gmap jsstring jsstring)
    (addon : jsstring) (options : CLIOptions) :
  dom table = dom (versions w) ->
  add (withVersions table w) addon options = add w addon options.
Proof.
  intros Hdom.
  unfold add, requireMain, resolveVersion, warnOnMismatch, addonWithVersion.
  destruct (getVersionSpecifier addon) as [name inputVersion].
  rewrite (isCoreAddon_withVersions w table name Hdom).
  reflexivity.
Qed.

(** X19: the spec [add] hands to the package manager parses back: for a
    package name and a version text, [getVersionSpecifier] splits
    [addonWithVersion] into that name and the version, with its caret when
    [isValidVersion] accepts the version. *)
Theorem X19_install_spec_parses_back_to_the_name w (name version : jsstring) :
  isPackageName name = true ->
  isVersionText version = true ->
  getVersionSpecifier (addonWithVersion w name version) =
    (name,
     Some (if isValidVersion (SemVer_valid w) version
           then chr "^" :: version else version)).
Proof.
  intros Hname Hversion. unfold addonWithVersion.
  destruct (isValidVersion _ version).
  - change (name ++ js "@^" ++ version) with (name ++ chr "@" :: chr "^" :: version).
    rewrite specifier_of_name_at by done.
    unfold isVersionText in *. cbn [str_truthy forallb andb] in *.
    apply andb_true_iff in Hversion as [_ ->]. done.
  - change (name ++ js "@" ++ version) with (name ++ chr "@" :: version).
    by rewrite specifier_of_name_at, Hversion.
Qed.

End MoreOnAdd3.

Lemma X7_witness :
  add (project npm notFound emptyMain) (js "@storybook/addon-docs") noOptions =
    ([ERetrievePackageJson;
      EGetStorybookInfo (VObject [(js "name", VString (js "app"))]) None;
      ELogger LError (js "Unable to find Storybook main.js config")],
     Ok tt).
Proof.
  apply (X7_main_config_not_found (project npm notFound emptyMain) _ noOptions
           (VObject [(js "name", VString (js "app"))]) notFound); reflexivity.
Defined.

Lemma X9_witness :
  let name := (getVersionSpecifier (js "@storybook/addon-docs")).1 in
  let t := (add (project npm found emptyMain) (js "@storybook/addon-docs") noOptions).1 in
  (logged LError t = [js "Unable to find Storybook main.js config"] /\
   requires t = [] /\ installs t = [] /\ writes t = []) \/
  (exists mainConfig,
     logged LError t = [duplicateMessage name mainConfig] /\
     reads t = [] /\ installs t = [] /\ writes t = []) \/
  (logged LError t = [] /\ length (installs t) = 1 /\
   appends t = [([js "addons"], name)] /\ length (writes t) = 1).
Proof.
  apply (X9_normal_return_outcomes (project npm found emptyMain)
           (js "@storybook/addon-docs") noOptions).
  vm_compute. reflexivity.
Defined.

Lemma X10_witness :
  let w := project npm found emptyMain in
  let t := (add w (js "@storybook/addon-docs") noOptions).1 in
  exists mainConfig main spec,
    reads t = [mainConfig] /\ readConfig w mainConfig = Returns main /\
    installs t = [(true, [spec])] /\
    addDependencies npm true [spec] = Returns tt /\
    appends t = [([js "addons"], js "@storybook/addon-docs")] /\
    appendValueToArray w [js "addons"] (js "@storybook/addon-docs") main
      = Returns [([js "addons"], js "@storybook/addon-docs")].
Proof.
  apply (X10_written_config_is_read_config_plus_name (project npm found emptyMain)
           (js "@storybook/addon-docs") noOptions
           [([js "addons"], js "@storybook/addon-docs")]).
  vm_compute. apply elem_of_cons. by left.
Defined.

Lemma X11_witness :
  let w := project npm found emptyMain in
  let t := (add w (js "@storybook/addon-docs") noOptions).1 in
  isCoreAddon w (js "@storybook/addon-docs") = true /\
  exists written, writes t = [written] /\ writeConfig w written = Returns tt.
Proof.
  destruct (X11_postinstall_only_for_core_after_write (project npm found emptyMain)
              (js "@storybook/addon-docs") noOptions (js "@storybook/addon-docs")
              {| po_packageManager := js "npm"; po_configDir := js ".storybook" |})
    as (_ & _ & Hcore & _ & _ & Hwritten).
  - vm_compute. apply elem_of_cons. by left.
  - cbv zeta. split; [exact Hcore|exact Hwritten].
Defined.

Lemma X13_witness :
  let w := readOnly (project npm found emptyMain) in
  let run := add w (js "@storybook/addon-docs") noOptions in
  installs run.1 = [(true, [js "@storybook/addon-docs@^8.0.0"])] /\
  writes run.1 = [[([js "addons"], js "@storybook/addon-docs")]] /\
  postinstalls run.1 = [] /\
  run.2 = Err (Thrown (VString (js "EACCES"))).
Proof.
  apply (X13_failed_write_leaves_package_installed
           (readOnly (project npm found emptyMain)) (js "@storybook/addon-docs")
           noOptions (js ".storybook") (js ".storybook/main.js") []
           [([js "addons"], js "@storybook/addon-docs")] (Some (js "8.0.0"))
           (js "8.0.0") (VString (js "EACCES"))).
  - exists emptyMain. split; [|repeat split; vm_compute; reflexivity].
    exists (VObject [(js "name", VString (js "app"))]), found.
    repeat split; reflexivity.
  - vm_compute; reflexivity.
  - reflexivity.
  - reflexivity.
  - reflexivity.
Defined.

Lemma X14_witness :
  let t := (add (project npm found emptyMain) (js "@storybook/addon-docs") noOptions).1 in
  queries t = [] /\ logged LWarn t = [] /\
  installs t = [(true, [js "@storybook/addon-docs@^8.0.0"])].
Proof.
  apply (X14_core_addon_follows_storybook_version (project npm found emptyMain)
           (js "@storybook/addon-docs") noOptions (js ".storybook")
           (js ".storybook/main.js") [] (js "8.0.0")).
  - apply project_ready; vm_compute; reflexivity.
  - vm_compute; reflexivity.
  - vm_compute; reflexivity.
  - reflexivity.
Defined.

Lemma X15_witness :
  exists version,
    [js "storybook-dark-mode@^2.1.0"]
      = [addonWithVersion (project npm found emptyMain)
           (getVersionSpecifier (js "storybook-dark-mode")).1 version].
Proof.
  destruct (X15_install_is_one_dev_dependency_named_after_the_addon
              (project npm found emptyMain) (js "storybook-dark-mode") noOptions
              true [js "storybook-dark-mode@^2.1.0"])
    as (_ & version & Hspec & _).
  - vm_compute. apply elem_of_cons. by left.
  - by exists version.
Defined.

Lemma X16_witness :
  let main := VObject [(js "addons", VArray [VNull])] in
  let t := (add (project npm found main) (js "@storybook/addon-docs") noOptions).1 in
  length (requires t) = 1 /\ reads t = [] /\ queries t = [] /\ installs t = [] /\
  appends t = [] /\ writes t = [] /\ postinstalls t = [] /\
  logged LError t = [] /\ logged LWarn t = [] /\ logged LLog t = [].
Proof.
  apply (X16_type_error_aborts_before_any_change
           (project npm found (VObject [(js "addons", VArray [VNull])]))
           (js "@storybook/addon-docs") noOptions).
  vm_compute. reflexivity.
Defined.

Lemma X17_witness :
  let t := (add (project npm found VNull) (js "@storybook/addon-docs") noOptions).1 in
  requires t = [js "/app/.storybook/main"] /\
  reads t = [js ".storybook/main.js"] /\ logged LError t = [].
Proof.
  apply (X17_empty_main_module_counts_as_no_addons (project npm found VNull)
           (js "@storybook/addon-docs") noOptions
           (VObject [(js "name", VString (js "app"))]) found
           (js ".storybook") (js ".storybook/main.js") VNull); reflexivity.
Defined.

Lemma X18_witness :
  add (withVersions {[ js "@storybook/addon-docs" := js "0.0.1" ]}
         (project npm found emptyMain)) (js "@storybook/addon-docs") noOptions
    = add (project npm found emptyMain) (js "@storybook/addon-docs") noOptions.
Proof.
  apply (X18_only_the_keys_of_versions_matter (project npm found emptyMain)
           {[ js "@storybook/addon-docs" := js "0.0.1" ]}).
  cbn [versions project]. by rewrite !dom_singleton_L.
Defined.

Lemma X19_witness :
  getVersionSpecifier
    (addonWithVersion (project npm found emptyMain) (js "@storybook/addon-docs")
       (js "8.0.0"))
    = (js "@storybook/addon-docs", Some (js "^8.0.0")).
Proof.
  apply (X19_install_spec_parses_back_to_the_name (project npm found emptyMain)
           (js "@storybook/addon-docs") (js "8.0.0")); reflexivity.
Defined.

(** ** More on [viteFinal] *)

Module MoreOnVuePreset.

Import VuePreset VuePresetProofs.





End MoreOnVuePreset.
